(** * server-monitor: the frontend gateway (Express application)

    A shallow embedding of the two versions of the frontend server script
    of the server-monitor stack:

    - [server-monitor/frontend/server.js]  (module [ServerJs]), and
    - its revised copy with the repaired proxy configuration
      (module [Part001]).

    Both scripts build an Express application out of the same five
    layers, in the same order:

      app.use(cors());
      app.use(express.static(path.join(__dirname)));
      app.use('/api', createProxyMiddleware({ ... }));
      app.get('/', ...);          // res.sendFile(index.html)
      app.get('/health', ...);    // res.json({status, service, timestamp})

    The scripts themselves are a few lines of glue; what they do is
    decided by the order of these registrations and by the options they
    pass.  The middleware they call is modelled here by its default
    behaviour for exactly the options the scripts give, as executable
    functions: Express 4 (its router, [res.send] with the [etag] and
    [fresh] packages, its final handler, serve-static 1.16 with send 0.19
    behind [express.static]), cors 2.x, and http-proxy-middleware 1.x/2.x
    over http-proxy 1.18 (the versions that take the [onError] option
    the revised script passes).

    Scope of the model: a request is a method, a path, a query string,
    headers and a body; the path is taken to hold no percent-escape, so
    that the path as received and the decoded path are the same text.
    A response records the status, the body and the headers that the
    scripts or the modelled middleware set explicitly (CORS headers,
    Content-Type of JSON and HTML documents, Location, relayed upstream
    headers); the headers that Node or the libraries add from the body or
    from file metadata (Date, Content-Length, ETag, Last-Modified, the
    Content-Type of a file) are not recorded, and no statement is made
    about them.  A file is its content only: conditional requests are modelled where the request
    alone decides the answer ([res.json] in full, [send] for
    [If-None-Match: *]), range requests are not.  Error pages are those
    of [NODE_ENV=production].  Console output and the wall-clock
    behaviour of sockets are outside the model. *)

From Stdlib Require Import ZArith Ascii String List Lia Bool.
From stdpp Require Import base option gmap strings pretty.

Set Warnings "-register-all".
Local Open Scope Z_scope.

(* ===================================================================== *)
(** * Strings                                                             *)
(* ===================================================================== *)

Module Str.

Definition ascii_lower (c : ascii) : ascii :=
  let n := N_of_ascii c in
  if ((65 <=? n) && (n <=? 90))%N then ascii_of_N (n + 32) else c.

(** [String.prototype.toLowerCase] on the ASCII range (the only letters
    the route patterns of the scripts contain). *)
Fixpoint to_lower (s : string) : string :=
  match s with
  | EmptyString => EmptyString
  | String c s' => String (ascii_lower c) (to_lower s')
  end.

Fixpoint starts_with (p s : string) : bool :=
  match p, s with
  | EmptyString, _ => true
  | String a p', String b s' => if Ascii.eqb a b then starts_with p' s' else false
  | String _ _, EmptyString => false
  end.

Fixpoint drop (n : nat) (s : string) : string :=
  match n, s with
  | O, _ => s
  | S n', String _ s' => drop n' s'
  | S _, EmptyString => EmptyString
  end.

Fixpoint last_char (s : string) : option ascii :=
  match s with
  | EmptyString => None
  | String c EmptyString => Some c
  | String _ s' => last_char s'
  end.

Definition ends_with_slash (s : string) : bool :=
  match last_char s with
  | Some c => Ascii.eqb c "/"%char
  | None => false
  end.

(** [s.split(sep)]: the pieces between occurrences of [sep]; always at
    least one piece. *)
Fixpoint split (sep : ascii) (s : string) : list string :=
  match s with
  | EmptyString => [EmptyString]
  | String c s' =>
      if Ascii.eqb c sep then EmptyString :: split sep s'
      else
        match split sep s' with
        | piece :: pieces => String c piece :: pieces
        | [] => [String c EmptyString]
        end
  end.

Fixpoint join (sep : string) (l : list string) : string :=
  match l with
  | [] => EmptyString
  | [x] => x
  | x :: l' => x +:+ sep +:+ join sep l'
  end.

(** The part of [s] before the first [c], and the rest from [c] on. *)
Fixpoint break (c : ascii) (s : string) : string * string :=
  match s with
  | EmptyString => (EmptyString, EmptyString)
  | String a s' =>
      if Ascii.eqb a c then (EmptyString, s)
      else let '(l, r) := break c s' in (String a l, r)
  end.

End Str.

(* ===================================================================== *)
(** * JSON values and [JSON.stringify]                                    *)
(* ===================================================================== *)

Module JSON.

Inductive json : Type :=
| JString (s : string)
| JObject (fields : list (string * json)).

Definition chr (n : N) : string := String (ascii_of_N n) EmptyString.

(** The double quote, the backslash and the line feed, by code. *)
Definition dq : string := chr 34.
Definition bs : string := chr 92.
Definition nl : string := chr 10.

Definition hex_digit (n : N) : string :=
  if (n <? 10)%N then chr (48 + n) else chr (87 + n).

(** One character of a string literal, escaped as [JSON.stringify]
    does: the quote, the backslash and the control characters. *)
Definition escape_char (c : ascii) : string :=
  let n := N_of_ascii c in
  if (n =? 34)%N then bs +:+ dq
  else if (n =? 92)%N then bs +:+ bs
  else if (n =? 8)%N then bs +:+ "b"
  else if (n =? 9)%N then bs +:+ "t"
  else if (n =? 10)%N then bs +:+ "n"
  else if (n =? 12)%N then bs +:+ "f"
  else if (n =? 13)%N then bs +:+ "r"
  else if (n <? 32)%N then bs +:+ "u00" +:+ hex_digit (n / 16) +:+ hex_digit (n mod 16)
  else String c EmptyString.

Fixpoint escape (s : string) : string :=
  match s with
  | EmptyString => EmptyString
  | String c s' => escape_char c +:+ escape s'
  end.

Definition quote (s : string) : string := dq +:+ escape s +:+ dq.

Fixpoint stringify (j : json) : string :=
  match j with
  | JString s => quote s
  | JObject fields =>
      "{" +:+
      Str.join ","
        ((fix members (l : list (string * json)) : list string :=
            match l with
            | [] => []
            | (k, v) :: l' => (quote k +:+ ":" +:+ stringify v) :: members l'
            end) fields)
      +:+ "}"
  end.

End JSON.

(* ===================================================================== *)
(** * The JavaScript [Date] object, as far as the scripts use it          *)
(* ===================================================================== *)

(** [new Date().toISOString()]: a time value is a number of milliseconds
    since the epoch; the calendar fields are those of ECMAScript's
    "Day Number and Time within Day", "Year Number", "Month Number" and
    "Date Number" definitions, computed here from the day number by era
    arithmetic on the proleptic Gregorian calendar. *)
Module JSDate.

Definition msPerDay : Z := 86400000.
Definition msPerHour : Z := 3600000.
Definition msPerMinute : Z := 60000.
Definition msPerSecond : Z := 1000.

(** A time value is valid up to 100,000,000 days on either side of the
    epoch ([TimeClip]). *)
Definition maxTime : Z := 8640000000000000.

Definition valid_time (t : Z) : bool := Z.abs t <=? maxTime.

Definition Day (t : Z) : Z := t / msPerDay.
Definition HourFromTime (t : Z) : Z := (t / msPerHour) mod 24.
Definition MinFromTime (t : Z) : Z := (t / msPerMinute) mod 60.
Definition SecFromTime (t : Z) : Z := (t / msPerSecond) mod 60.
Definition msFromTime (t : Z) : Z := t mod msPerSecond.

Definition DaysInYear (y : Z) : Z :=
  if negb (y mod 4 =? 0) then 365
  else if negb (y mod 100 =? 0) then 366
  else if negb (y mod 400 =? 0) then 365
  else 366.

Definition DayFromYear (y : Z) : Z :=
  365 * (y - 1970) + (y - 1969) / 4 - (y - 1901) / 100 + (y - 1601) / 400.

Definition InLeapYear (y : Z) : bool := DaysInYear y =? 366.

(** Day within the year on which month [m] (1 to 12) begins. *)
Definition month_start (leap : bool) (m : Z) : Z :=
  let l := if leap then 1 else 0 in
  match m with
  | 1 => 0
  | 2 => 31
  | 3 => 59 + l
  | 4 => 90 + l
  | 5 => 120 + l
  | 6 => 151 + l
  | 7 => 181 + l
  | 8 => 212 + l
  | 9 => 243 + l
  | 10 => 273 + l
  | 11 => 304 + l
  | _ => 334 + l
  end.

Definition DaysInMonth (y m : Z) : Z :=
  match m with
  | 2 => if InLeapYear y then 29 else 28
  | 4 | 6 | 9 | 11 => 30
  | _ => 31
  end.

(** [MakeDay], [MakeTime] and [MakeDate] for fields that are in range. *)
Definition MakeDay (y m d : Z) : Z :=
  DayFromYear y + month_start (InLeapYear y) m + d - 1.

Definition MakeTime (h mi sec ms : Z) : Z :=
  h * msPerHour + mi * msPerMinute + sec * msPerSecond + ms.

Definition MakeDate (day time : Z) : Z := day * msPerDay + time.

(** Year, month (1 to 12) and day of the month of a day number. *)
Definition civil_from_days (day : Z) : Z * Z * Z :=
  let z := day + 719468 in
  let era := z / 146097 in
  let doe := z - era * 146097 in
  let yoe := (doe - doe / 1460 + doe / 36524 - doe / 146096) / 365 in
  let y := yoe + era * 400 in
  let doy := doe - (365 * yoe + yoe / 4 - yoe / 100) in
  let mp := (5 * doy + 2) / 153 in
  let d := doy - (153 * mp + 2) / 5 + 1 in
  let m := if mp <? 10 then mp + 3 else mp - 9 in
  (if m <=? 2 then y + 1 else y, m, d).

Definition YearFromTime (t : Z) : Z := fst (fst (civil_from_days (Day t))).
Definition MonthFromTime (t : Z) : Z := snd (fst (civil_from_days (Day t))).
Definition DateFromTime (t : Z) : Z := snd (civil_from_days (Day t)).

Definition digit_char (d : Z) : ascii := ascii_of_N (48 + Z.to_N d).

Definition digit_val (c : ascii) : option Z :=
  let n := N_of_ascii c in
  if ((48 <=? n) && (n <=? 57))%N then Some (Z.of_N n - 48) else None.

(** [v] in decimal on exactly [n] digits, zero-padded on the left. *)
Fixpoint pad (n : nat) (v : Z) : string :=
  match n with
  | O => EmptyString
  | S n' =>
      String (digit_char (v / 10 ^ Z.of_nat n' mod 10)) (pad n' v)
  end.

(** Four digits for the years 0 to 9999, otherwise a sign and six
    digits (the expanded years of the Date Time String Format). *)
Definition year_string (y : Z) : string :=
  if (0 <=? y) && (y <=? 9999) then pad 4 y
  else (if y <? 0 then "-" else "+") +:+ pad 6 (Z.abs y).

(** [Date.prototype.toISOString]: [None] stands for the RangeError
    thrown on an invalid time value. *)
Definition toISOString (t : Z) : option string :=
  if valid_time t then
    Some (year_string (YearFromTime t) +:+ "-" +:+ pad 2 (MonthFromTime t)
          +:+ "-" +:+ pad 2 (DateFromTime t)
          +:+ "T" +:+ pad 2 (HourFromTime t)
          +:+ ":" +:+ pad 2 (MinFromTime t)
          +:+ ":" +:+ pad 2 (SecFromTime t)
          +:+ "." +:+ pad 3 (msFromTime t) +:+ "Z")
  else None.

(** ** Reading a date-time back

    A strict reader of the ISO-8601 UTC date-time format
    [YYYY-MM-DDTHH:mm:ss.sssZ] (or with an expanded year
    [+YYYYYY]/[-YYYYYY]): the fields must be in range for the calendar,
    and the result is the time value the text denotes. *)

Fixpoint read_digits (n : nat) (acc : Z) (s : string) : option (Z * string) :=
  match n with
  | O => Some (acc, s)
  | S n' =>
      match s with
      | String c s' =>
          match digit_val c with
          | Some d => read_digits n' (10 * acc + d) s'
          | None => None
          end
      | EmptyString => None
      end
  end.

Definition expect (c : ascii) (s : string) : option string :=
  match s with
  | String a s' => if Ascii.eqb a c then Some s' else None
  | EmptyString => None
  end.

Definition read_year (s : string) : option (Z * string) :=
  match s with
  | String "+" s' => read_digits 6 0 s'
  | String "-" s' =>
      '(y, r) ← read_digits 6 0 s';
      if y =? 0 then None else Some (- y, r)
  | _ => read_digits 4 0 s
  end.

Definition parse_iso8601 (s : string) : option Z :=
  '(y, s) ← read_year s;
  s ← expect "-" s;
  '(m, s) ← read_digits 2 0 s;
  s ← expect "-" s;
  '(d, s) ← read_digits 2 0 s;
  s ← expect "T" s;
  '(h, s) ← read_digits 2 0 s;
  s ← expect ":" s;
  '(mi, s) ← read_digits 2 0 s;
  s ← expect ":" s;
  '(sec, s) ← read_digits 2 0 s;
  s ← expect "." s;
  '(ms, s) ← read_digits 3 0 s;
  s ← expect "Z" s;
  if negb (String.eqb s EmptyString) then None
  else if negb ((1 <=? m) && (m <=? 12)) then None
  else if negb ((1 <=? d) && (d <=? DaysInMonth y m)) then None
  else if negb ((h <=? 23) && (mi <=? 59) && (sec <=? 59)) then None
  else Some (MakeDate (MakeDay y m d) (MakeTime h mi sec ms)).

Definition is_iso8601 (s : string) : bool :=
  match parse_iso8601 s with Some _ => true | None => false end.

End JSDate.

(* ===================================================================== *)
(** * Entity tags: SHA-1, Base64 and the [etag] package                   *)
(* ===================================================================== *)

(** SHA-1 (FIPS 180-4) on a string of bytes, with 32-bit words as
    numbers below [2^32]. *)
Module SHA1.

Local Open Scope N_scope.

Definition w32 (x : N) : N := N.land x 0xFFFFFFFF.

Definition rotl (n x : N) : N :=
  w32 (N.lor (N.shiftl x n) (N.shiftr x (32 - n))).

Definition bytes (s : string) : list N :=
  map N_of_ascii (list_ascii_of_string s).

(** The [k] low bytes of [x], most significant first. *)
Fixpoint be_bytes (k : nat) (x : N) : list N :=
  match k with
  | O => []
  | S k' => be_bytes k' (N.shiftr x 8) ++ [N.land x 255]
  end.

(** The message, the byte [0x80], zero bytes up to 56 modulo 64, and
    the length of the message in bits as a 64-bit number. *)
Definition padded (msg : list N) : list N :=
  let len := N.of_nat (length msg) in
  msg ++ [128] ++ repeat 0 (N.to_nat ((119 - len mod 64) mod 64)) ++ be_bytes 8 (8 * len).

Fixpoint words (bs : list N) : list N :=
  match bs with
  | a :: b :: c :: d :: rest =>
      N.lor (N.shiftl a 24) (N.lor (N.shiftl b 16) (N.lor (N.shiftl c 8) d)) :: words rest
  | _ => []
  end.

(** The message schedule, latest word first: [n] more words after
    those of [w]. *)
Fixpoint schedule (n : nat) (w : list N) : list N :=
  match n with
  | O => w
  | S n' =>
      let x := N.lxor (N.lxor (nth 2 w 0) (nth 7 w 0)) (N.lxor (nth 13 w 0) (nth 15 w 0)) in
      schedule n' (rotl 1 x :: w)
  end.

Definition state : Type := N * N * N * N * N.

Definition round (st : state) (tw : N * N) : state :=
  let '(a, b, c, d, e) := st in
  let '(t, wt) := tw in
  let '(f, k) :=
    if t <? 20 then (N.lor (N.land b c) (N.land (N.lxor b 0xFFFFFFFF) d), 0x5A827999)
    else if t <? 40 then (N.lxor (N.lxor b c) d, 0x6ED9EBA1)
    else if t <? 60 then (N.lor (N.lor (N.land b c) (N.land b d)) (N.land c d), 0x8F1BBCDC)
    else (N.lxor (N.lxor b c) d, 0xCA62C1D6) in
  (w32 (rotl 5 a + f + e + k + wt), a, rotl 30 b, c, d).

Definition number {A : Type} (l : list A) : list (N * A) :=
  combine (map N.of_nat (seq 0 (length l))) l.

Definition block (h : state) (w16 : list N) : state :=
  let '(h0, h1, h2, h3, h4) := h in
  let '(a, b, c, d, e) :=
    fold_left round (number (rev (schedule 64 (rev w16)))) h in
  (w32 (h0 + a), w32 (h1 + b), w32 (h2 + c), w32 (h3 + d), w32 (h4 + e)).

Fixpoint blocks (fuel : nat) (h : state) (ws : list N) : state :=
  match fuel, ws with
  | S fuel', _ :: _ => blocks fuel' (block h (firstn 16 ws)) (skipn 16 ws)
  | _, _ => h
  end.

Definition digest (s : string) : list N :=
  let ws := words (padded (bytes s)) in
  let '(h0, h1, h2, h3, h4) :=
    blocks (length ws) (0x67452301, 0xEFCDAB89, 0x98BADCFE, 0x10325476, 0xC3D2E1F0) ws in
  be_bytes 4 h0 ++ be_bytes 4 h1 ++ be_bytes 4 h2 ++ be_bytes 4 h3 ++ be_bytes 4 h4.

End SHA1.

Module Base64.

Local Open Scope N_scope.

Definition alphabet : string :=
  "ABCDEFGHIJKLMNOPQRSTUVWXYZabcdefghijklmnopqrstuvwxyz0123456789+/".

Definition digit (n : N) : string :=
  match String.get (N.to_nat n) alphabet with
  | Some c => String c EmptyString
  | None => EmptyString
  end.

Fixpoint encode (bs : list N) : string :=
  match bs with
  | [] => EmptyString
  | [a] =>
      digit (N.shiftr a 2) +:+ digit (N.shiftl (N.land a 3) 4) +:+ "=="
  | [a; b] =>
      digit (N.shiftr a 2)
      +:+ digit (N.lor (N.shiftl (N.land a 3) 4) (N.shiftr b 4))
      +:+ digit (N.shiftl (N.land b 15) 2) +:+ "="
  | a :: b :: c :: rest =>
      digit (N.shiftr a 2)
      +:+ digit (N.lor (N.shiftl (N.land a 3) 4) (N.shiftr b 4))
      +:+ digit (N.lor (N.shiftl (N.land b 15) 2) (N.shiftr c 6))
      +:+ digit (N.land c 63) +:+ encode rest
  end.

End Base64.

(** The [etag] package, as Express calls it for the body of [res.send]
    (setting ["etag"] at its default, [weak]). *)
Module ETag.

Fixpoint hex_go (fuel : nat) (n : N) (acc : string) : string :=
  match fuel with
  | O => acc
  | S fuel' =>
      let d := (n mod 16)%N in
      let c := ascii_of_N (if (d <? 10)%N then 48 + d else 87 + d)%N in
      if (n / 16 =? 0)%N then String c acc else hex_go fuel' (n / 16)%N (String c acc)
  end.

(** [n.toString(16)] *)
Definition to_hex (n : N) : string :=
  hex_go (S (N.to_nat (N.log2 n))) n EmptyString.

(** [entitytag]: the length of the body in hexadecimal, and the first
    27 characters of the Base64 text of its SHA-1 digest, in quotes. *)
Definition entitytag (entity : string) : string :=
  JSON.dq +:+ to_hex (N.of_nat (String.length entity)) +:+ "-"
  +:+ String.substring 0 27 (Base64.encode (SHA1.digest entity)) +:+ JSON.dq.

Definition weak (entity : string) : string := "W/" +:+ entitytag entity.

End ETag.

(* ===================================================================== *)
(** * HTTP messages and the environment of a request                      *)
(* ===================================================================== *)

Inductive method : Type := GET | HEAD | POST | PUT | PATCH | DELETE | OPTIONS.

Definition method_name (m : method) : string :=
  match m with
  | GET => "GET" | HEAD => "HEAD" | POST => "POST" | PUT => "PUT"
  | PATCH => "PATCH" | DELETE => "DELETE" | OPTIONS => "OPTIONS"
  end.

(** Header fields, keyed by their lower-case names as Node keeps them. *)
Abbreviation headers := (gmap string string).

(** [originalUrl] is [path] followed by [query] (empty, or from the
    question mark on).  The path is the one the router matches and the
    one [send] looks up: the two differ in the code only by the
    percent-decoding of [send], so the path is meant without
    percent-escapes. *)
Record request : Type := Request {
  req_method : method;
  path : string;
  query : string;
  req_headers : headers;
  req_body : string
}.

Definition originalUrl (req : request) : string := path req +:+ query req.

Record response : Type := Response {
  status : Z;
  res_headers : headers;
  body : string
}.

(** The request that [http-proxy] hands to [http.request] for the
    upstream.  (Node frames the body itself: where the headers give
    neither [Content-Length] nor [Transfer-Encoding], it may add the
    latter on the wire.) *)
Record proxy_request : Type := ProxyRequest {
  preq_method : method;
  preq_url : string;
  preq_headers : headers;
  preq_body : string
}.

(** The [code] of the error that the upstream connection emits. *)
Inductive transport_error : Type :=
| ECONNREFUSED
| ECONNRESET
| ETIMEDOUT
| ENOTFOUND
| EHOSTUNREACH
| EPIPE
| HPE_INVALID.

Inductive upstream_result : Type :=
| Replied (r : response)
| Failed (e : transport_error).

Inductive node : Type :=
| File (content : string)
| Directory.

(** What a request handler can observe outside the request: the file
    system (absolute paths), the upstream behind each target URL, the
    clock (the time value of [new Date()], which is always a valid one)
    and [process.env] as it is when the request arrives. *)
Record world : Type := World {
  fs : gmap string node;
  upstream : string → proxy_request → upstream_result;
  now : Z;
  now_valid : JSDate.valid_time now = true;
  env_now : gmap string string
}.

(** The Node process at startup: [process.env] and the directory of the
    script ([__dirname]). *)
Record process : Type := Process {
  env : gmap string string;
  __dirname : string
}.

(** [path.join(dir, name)] for a normalized [dir] and a plain [name]. *)
Definition path_join (dir name : string) : string :=
  if Str.ends_with_slash dir then dir +:+ name else dir +:+ "/" +:+ name.

(** [process.env.X || fallback]: an unset or empty variable is falsy. *)
Definition env_or (e : gmap string string) (name fallback : string) : string :=
  match e !! name with
  | Some v => if String.eqb v "" then fallback else v
  | None => fallback
  end.

(** A header of the request as JavaScript tests it ([if (value)]):
    an absent header and an empty one both count as not given. *)
Definition header (hs : headers) (name : string) : option string :=
  match hs !! name with
  | Some v => if String.eqb v "" then None else Some v
  | None => None
  end.

Definition given (hs : headers) (name : string) : bool :=
  match header hs name with Some _ => true | None => false end.

(** [\s] of a regular expression on a header value, which Node reads
    one character per byte. *)
Definition is_space (c : ascii) : bool :=
  let n := N_of_ascii c in
  ((9 <=? n) && (n <=? 13) || (n =? 32) || (n =? 160))%N.

Fixpoint trim_left (s : string) : string :=
  match s with
  | String c s' => if is_space c then trim_left s' else s
  | EmptyString => EmptyString
  end.

Definition trim (s : string) : string :=
  String.rev (trim_left (String.rev (trim_left s))).

(* ===================================================================== *)
(** * Conditional requests: the [fresh] package                           *)
(* ===================================================================== *)

Fixpoint drop_spaces (s : string) : string :=
  match s with
  | String c s' => if Ascii.eqb c " " then drop_spaces s' else s
  | EmptyString => EmptyString
  end.

(** [parseTokenList]: the pieces between commas, without the spaces
    around them. *)
Definition parseTokenList (s : string) : list string :=
  map (fun tok => String.rev (drop_spaces (String.rev (drop_spaces tok))))
      (Str.split "," s).

(** [/(?:^|,)\s*?no-cache\s*?(?:,|$)/] on the [Cache-Control] header. *)
Definition no_cache (hs : headers) : bool :=
  match header hs "cache-control" with
  | Some cc => existsb (fun tok => String.eqb (trim tok) "no-cache") (Str.split "," cc)
  | None => false
  end.

Definition etag_matches (etag m : string) : bool :=
  String.eqb m etag || String.eqb m ("W/" +:+ etag) || String.eqb ("W/" +:+ m) etag.

(** [fresh(reqHeaders, resHeaders)] for a response that carries the
    entity tag [etag] and no [Last-Modified], as the responses of
    [res.send] do: the request is fresh when it is conditional, does not
    ask for [no-cache], names the tag (or [*]) in [If-None-Match], and
    has no [If-Modified-Since] (which no [Last-Modified] can satisfy). *)
Definition fresh (reqHeaders : headers) (etag : string) : bool :=
  match header reqHeaders "if-modified-since", header reqHeaders "if-none-match" with
  | None, None => false
  | modifiedSince, noneMatch =>
      if no_cache reqHeaders then false
      else
        match noneMatch with
        | Some nm =>
            String.eqb nm "*" || existsb (etag_matches etag) (parseTokenList nm)
        | None => true
        end
        && match modifiedSince with Some _ => false | None => true end
  end.

(* ===================================================================== *)
(** * Express: layers and dispatch                                        *)
(* ===================================================================== *)

(** An error handed to [next(err)]. *)
Record http_error : Type := HttpError {
  err_status : Z;
  err_message : string
}.

(** What a middleware does with a request, given the headers set on the
    response so far: pass on ([next()]), pass an error on ([next(err)] or
    a thrown exception), or end the response. *)
Inductive step : Type :=
| Next (hs : headers)
| Throw (e : http_error) (hs : headers)
| End (r : response).

Definition middleware : Type := world → request → headers → step.

(** [app.use(mount, f)] and [app.get(route, f)]; [app.use(f)] is
    [Use "/" f]. *)
Inductive layer : Type :=
| Use (mount : string) (f : middleware)
| Get (route : string) (f : middleware).

(** A mount path matches case-insensitively up to a segment boundary:
    the pattern of ['/api'] is [^\/api\/?(?=\/|$)] with flag [i]. *)
Definition match_mount (mount p : string) : bool :=
  if String.eqb mount "/" then true
  else
    let m := Str.to_lower mount in
    let p := Str.to_lower p in
    Str.starts_with m p &&
    (let rest := Str.drop (String.length m) p in
     String.eqb rest "" || Str.starts_with "/" rest).

(** A route path matches the whole path case-insensitively, with an
    optional trailing slash: [^\/health\/?$] with flag [i], and [^\/?$]
    for the route ['/']. *)
Definition match_route (route p : string) : bool :=
  let r := Str.to_lower route in
  let p := Str.to_lower p in
  if Str.ends_with_slash r then
    String.eqb p r || String.eqb (p +:+ "/") r
  else
    String.eqb p r || String.eqb p (r +:+ "/").

(** A [get] route also answers HEAD. *)
Definition layer_matches (l : layer) (req : request) : bool :=
  match l with
  | Use mount _ => match_mount mount (path req)
  | Get route _ =>
      match req_method req with
      | GET | HEAD => match_route route (path req)
      | _ => false
      end
  end.

Definition layer_handle (l : layer) : middleware :=
  match l with
  | Use _ f => f
  | Get _ f => f
  end.

Definition escape_html_char (c : ascii) : string :=
  let n := N_of_ascii c in
  if (n =? 38)%N then "&amp;"
  else if (n =? 60)%N then "&lt;"
  else if (n =? 62)%N then "&gt;"
  else if (n =? 34)%N then "&quot;"
  else if (n =? 39)%N then "&#39;"
  else String c EmptyString.

Fixpoint escapeHtml (s : string) : string :=
  match s with
  | EmptyString => EmptyString
  | String c s' => escape_html_char c +:+ escapeHtml s'
  end.

Definition createHtmlDocument (title message : string) : string :=
  "<!DOCTYPE html>" +:+ JSON.nl +:+
  "<html lang=" +:+ JSON.dq +:+ "en" +:+ JSON.dq +:+ ">" +:+ JSON.nl +:+
  "<head>" +:+ JSON.nl +:+
  "<meta charset=" +:+ JSON.dq +:+ "utf-8" +:+ JSON.dq +:+ ">" +:+ JSON.nl +:+
  "<title>" +:+ title +:+ "</title>" +:+ JSON.nl +:+
  "</head>" +:+ JSON.nl +:+
  "<body>" +:+ JSON.nl +:+
  "<pre>" +:+ message +:+ "</pre>" +:+ JSON.nl +:+
  "</body>" +:+ JSON.nl +:+
  "</html>" +:+ JSON.nl.

(** The body as sent: none for a HEAD request. *)
Definition payload (req : request) (b : string) : string :=
  match req_method req with
  | HEAD => EmptyString
  | _ => b
  end.

Definition html_headers (hs : headers) : headers :=
  <["content-type" := "text/html; charset=utf-8"]>
    (<["x-content-type-options" := "nosniff"]>
       (<["content-security-policy" := "default-src 'none'"]> hs)).

(** Express's final handler, reached when no layer ends the response:
    404 "Cannot METHOD path", or the status and message of the error that
    was passed on.  The headers set so far stay on the response.  The
    path is printed through [encodeUrl], which leaves a path of plain
    characters as it is; the message of an error is the one printed with
    [NODE_ENV=production] (in any other mode the page shows the stack
    trace of the error instead). *)
Definition finalhandler (err : option http_error) (req : request) (hs : headers)
  : response :=
  match err with
  | None =>
      {| status := 404;
         res_headers := html_headers hs;
         body := payload req
                   (createHtmlDocument "Error"
                      ("Cannot " +:+ method_name (req_method req) +:+ " "
                       +:+ escapeHtml (path req))) |}
  | Some e =>
      {| status := err_status e;
         res_headers := html_headers hs;
         body := payload req (createHtmlDocument "Error" (escapeHtml (err_message e))) |}
  end.

(** The router: the layers in registration order; the first matching
    layer that ends the response decides it.  The scripts register no
    error-handling middleware, so an error goes straight to the final
    handler.  [route] also tells at which layer the dispatch stopped (it
    ended the response or raised the error), by its position in the
    stack; [None] when every layer passed the request on. *)
Fixpoint route (stack : list layer) (w : world) (req : request) (hs : headers)
  (i : nat) : option nat * response :=
  match stack with
  | [] => (None, finalhandler None req hs)
  | l :: stack' =>
      if layer_matches l req then
        match layer_handle l w req hs with
        | Next hs' => route stack' w req hs' (S i)
        | Throw e hs' => (Some i, finalhandler (Some e) req hs')
        | End r => (Some i, r)
        end
      else route stack' w req hs (S i)
  end.

Definition dispatch (stack : list layer) (w : world) (req : request) (hs : headers)
  : response :=
  snd (route stack w req hs 0).

(** [req.fresh]: only a GET or HEAD whose response has a status 2xx
    or 304 can be fresh. *)
Definition req_fresh (req : request) (code : Z) (etag : string) : bool :=
  match req_method req with
  | GET | HEAD =>
      ((200 <=? code) && (code <? 300) || (code =? 304))
      && fresh (req_headers req) etag
  | _ => false
  end.

(** [res.status(code).json(obj)]; no layer of the scripts sets a
    [Content-Type] before it.  [res.send] computes the weak entity tag of
    the body and, when the request is fresh, answers 304 instead: without
    the body and without the headers that describe it. *)
Definition res_json (code : Z) (obj : JSON.json) (req : request) (hs : headers)
  : response :=
  let text := JSON.stringify obj in
  if req_fresh req code (ETag.weak text) then
    {| status := 304;
       res_headers :=
         delete "content-type" (delete "content-length" (delete "transfer-encoding" hs));
       body := EmptyString |}
  else
    {| status := code;
       res_headers := <["content-type" := "application/json; charset=utf-8"]> hs;
       body := payload req (JSON.stringify obj) |}.

(* ===================================================================== *)
(** * send: a file as the response                                        *)
(* ===================================================================== *)

(** A request without a conditional header and without [Range]. *)
Definition unconditional (req : request) : bool :=
  negb (given (req_headers req) "if-match"
        || given (req_headers req) "if-unmodified-since"
        || given (req_headers req) "if-none-match"
        || given (req_headers req) "if-modified-since"
        || given (req_headers req) "range").

(** [If-None-Match: *] and no other condition: the conditional request
    that [send] answers 304 for any file, whatever its entity tag and its
    modification time ([isPreconditionFailure] has nothing to test,
    [isFresh] holds unless the request asks for [no-cache]). *)
Definition matches_any (hs : headers) : bool :=
  match header hs "if-none-match" with
  | Some nm =>
      String.eqb nm "*"
      && negb (given hs "if-match" || given hs "if-unmodified-since"
               || given hs "if-modified-since")
      && negb (no_cache hs)
  | None => false
  end.

(** [removeContentHeaderFields]: a 304 carries no [Content-*] header
    other than [Content-Location]. *)
Definition removeContentHeaderFields (hs : headers) : headers :=
  filter (fun kv => Str.starts_with "content-" (fst kv) = false
                    ∨ fst kv = "content-location") hs.

(** The response of [send] for a file that exists: its content with
    status 200, or 304 for [If-None-Match: *].  The other conditional
    requests and the range requests are answered by [send] from the
    validators and the size of the file, with dates read by
    [Date.parse] (304, 412, 206, 416 or 200); a file of the model is its
    content only, and the model gives them the whole file: the
    statements about served files are made for unconditional requests. *)
Definition send_file (req : request) (hs : headers) (content : string) : response :=
  if matches_any (req_headers req) then
    {| status := 304; res_headers := removeContentHeaderFields hs; body := EmptyString |}
  else
    {| status := 200; res_headers := hs; body := payload req content |}.

(** [res.sendFile(file)] without a callback: the file through [send];
    a missing file is passed on as a 404 error, a directory is skipped. *)
Definition res_sendFile (file : string) : middleware := fun w req hs =>
  match fs w !! file with
  | Some (File content) => End (send_file req hs content)
  | Some Directory => Next hs
  | None => Throw {| err_status := 404; err_message := "Not Found" |} hs
  end.

(* ===================================================================== *)
(** * cors(): the CORS middleware with its default options                *)
(* ===================================================================== *)

(** Defaults: origin ["*"], methods [GET,HEAD,PUT,PATCH,POST,DELETE],
    [preflightContinue: false], [optionsSuccessStatus: 204].  An OPTIONS
    request is a preflight: it is answered here and goes no further. *)
Definition cors : middleware := fun w req hs =>
  let hs := <["access-control-allow-origin" := "*"]> hs in
  match req_method req with
  | OPTIONS =>
      let hs := <["access-control-allow-methods" := "GET,HEAD,PUT,PATCH,POST,DELETE"]> hs in
      let hs := <["vary" := "Access-Control-Request-Headers"]> hs in
      let hs :=
        match req_headers req !! "access-control-request-headers" with
        | Some h =>
            if String.eqb h "" then hs else <["access-control-allow-headers" := h]> hs
        | None => hs
        end in
      End {| status := 204;
             res_headers := <["content-length" := "0"]> hs;
             body := EmptyString |}
  | _ => Next hs
  end.

(* ===================================================================== *)
(** * express.static(root): serve-static with its default options         *)
(* ===================================================================== *)

(** [path.normalize] on the segments of a request path: empty and ["."]
    segments go, [".."] removes the segment before it; [None] when the
    path climbs above the root (answered 403 by [send]). *)
Fixpoint normalize_go (segs : list string) (acc : list string) : option (list string) :=
  match segs with
  | [] => Some (rev acc)
  | seg :: segs' =>
      if String.eqb seg "" || String.eqb seg "." then normalize_go segs' acc
      else if String.eqb seg ".." then
        match acc with
        | [] => None
        | _ :: acc' => normalize_go segs' acc'
        end
      else normalize_go segs' (seg :: acc)
  end.

Definition normalize (p : string) : option (list string) :=
  normalize_go (Str.split "/" p) [].

Fixpoint contains_nul (s : string) : bool :=
  match s with
  | EmptyString => false
  | String c s' => (N_of_ascii c =? 0)%N || contains_nul s'
  end.

(** With [dotfiles] left unset, [send] ignores a path whose last segment
    begins with a dot, and only that segment is looked at. *)
Definition dotfile (parts : list string) : bool :=
  match last parts with
  | Some (String "." (String _ _)) => true
  | _ => false
  end.

Definition resolve (root : string) (parts : list string) : string :=
  match parts with
  | [] => root
  | _ => path_join root (Str.join "/" parts)
  end.

(** [collapseLeadingSlashes]: several slashes at the start become one. *)
Fixpoint drop_slashes (s : string) : string :=
  match s with
  | String c s' => if Ascii.eqb c "/" then drop_slashes s' else s
  | EmptyString => EmptyString
  end.

Definition collapseLeadingSlashes (s : string) : string :=
  match s with
  | String c (String d _) =>
      if Ascii.eqb c "/" && Ascii.eqb d "/" then "/" +:+ drop_slashes s else s
  | _ => s
  end.

(** Only GET and HEAD are served.  A path that does not name a file
    falls through to the next layer ([fallthrough: true]), as do the
    client errors of [send] (400, 403, 404).  A path with a trailing
    slash is looked up as [index.html] in that directory; a directory
    named without the trailing slash is answered by a redirect to it
    (the page of serve-static 1.16, which prints the location as text). *)
Definition express_static (root : string) : middleware := fun w req hs =>
  match req_method req with
  | GET | HEAD =>
      if contains_nul (path req) then Next hs
      else
        match normalize (path req) with
        | None => Next hs
        | Some parts =>
            if Str.ends_with_slash (path req) then
              match fs w !! resolve root (parts ++ ["index.html"]) with
              | Some (File content) => End (send_file req hs content)
              | _ => Next hs
              end
            else if dotfile parts then Next hs
            else
              match fs w !! resolve root parts with
              | Some (File content) => End (send_file req hs content)
              | Some Directory =>
                  let loc := collapseLeadingSlashes (path req +:+ "/") +:+ query req in
                  End {| status := 301;
                         res_headers :=
                           <["location" := loc]>
                             (<["content-type" := "text/html; charset=UTF-8"]>
                                (<["x-content-type-options" := "nosniff"]>
                                   (<["content-security-policy" := "default-src 'none'"]> hs)));
                         body :=
                           payload req
                             (createHtmlDocument "Redirecting"
                                ("Redirecting to " +:+ escapeHtml loc)) |}
              | None => Next hs
              end
        end
  | _ => Next hs
  end.

(* ===================================================================== *)
(** * createProxyMiddleware(options): http-proxy-middleware               *)
(* ===================================================================== *)

(** The options the scripts pass.  The keys of [pathRewrite] are regular
    expressions; the scripts only use the form [^literal], kept here as
    the literal prefix.  [onError] is the script's own error callback,
    [None] when the script gives none.  [timeout] is handed to http-proxy
    as the idle time, in milliseconds, after which the socket of the
    incoming request is closed; it is recorded as given, time itself is
    not modelled. *)
Record proxy_options : Type := ProxyOptions {
  target : string;
  changeOrigin : bool;
  pathRewrite : list (string * string);
  onError : option (transport_error → request → headers → response);
  timeout : option Z
}.

(** The first rule whose pattern matches rewrites the path:
    [path.replace(/^literal/, value)]. *)
Fixpoint rewritePath (rules : list (string * string)) (url : string) : string :=
  match rules with
  | [] => url
  | (prefix, value) :: rules' =>
      if Str.starts_with prefix url
      then value +:+ Str.drop (String.length prefix) url
      else rewritePath rules' url
  end.

(** [url.parse(target)], for a target of the form
    [scheme://host[:port][/path][?query]]: the host with its port as the
    URL spells it, in lower case, and the path with the query, ["/"] when
    the URL names none. *)
Fixpoint break_host (s : string) : string * string :=
  match s with
  | EmptyString => (EmptyString, EmptyString)
  | String c s' =>
      if Ascii.eqb c "/" || Ascii.eqb c "?" || Ascii.eqb c "#" then (EmptyString, s)
      else let '(h, r) := break_host s' in (String c h, r)
  end.

Definition after_scheme (url : string) : string :=
  if Str.starts_with "https://" url then Str.drop 8 url
  else if Str.starts_with "http://" url then Str.drop 7 url
  else url.

(** The [Host] header for a target URL ([changeOrigin]): [host] of the
    parsed URL.  A port that the URL spells out stays, also the default
    port of the protocol. *)
Definition target_host (url : string) : string :=
  Str.to_lower (fst (break_host (after_scheme url))).

Definition target_path (url : string) : string :=
  let rest := fst (Str.break "#" (snd (break_host (after_scheme url)))) in
  if Str.starts_with "/" rest then rest else "/" +:+ rest.

(** [/(^|,)\s*upgrade\s*($|,)/i] on the [Connection] header. *)
Definition is_upgrade (connection : string) : bool :=
  existsb (fun tok => String.eqb (trim (Str.to_lower tok)) "upgrade")
          (Str.split "," connection).

(** [deleteLength]: a DELETE or OPTIONS request without a
    [Content-Length] is sent with [Content-Length: 0] and without
    [Transfer-Encoding], which declares its body empty. *)
Definition length_deleted (req : request) : bool :=
  match req_method req with
  | DELETE | OPTIONS => negb (given (req_headers req) "content-length")
  | _ => false
  end.

Definition deleteLength (req : request) : headers :=
  if length_deleted req
  then delete "transfer-encoding" (<["content-length" := "0"]> (req_headers req))
  else req_headers req.

(** [/\/+/g] replaced by one slash. *)
Fixpoint collapse_slashes (s : string) : string :=
  match s with
  | EmptyString => EmptyString
  | String c s' =>
      if Ascii.eqb c "/" && Str.starts_with "/" s' then collapse_slashes s'
      else String c (collapse_slashes s')
  end.

(** [s.replace(pattern, value)] for a string pattern: the first
    occurrence only. *)
Fixpoint replace_first (pattern value s : string) : string :=
  if Str.starts_with pattern s then value +:+ Str.drop (String.length pattern) s
  else
    match s with
    | EmptyString => EmptyString
    | String c s' => String c (replace_first pattern value s')
    end.

(** [common.urlJoin(targetPath, url)]: the two joined by a slash (an
    empty one left out), up to the first question mark of [url]; runs of
    slashes collapsed, a scheme inside the path given back its two
    slashes; the query appended as it is. *)
Definition urlJoin (targetPath url : string) : string :=
  let '(p, q) := Str.break "?" url in
  let joined :=
    Str.join "/" (List.filter (fun x => negb (String.eqb x "")) [targetPath; p]) in
  replace_first "https:/" "https://"
    (replace_first "http:/" "http://" (collapse_slashes joined))
  +:+ q.

(** The outgoing request: the method as received; the URL restored to
    [originalUrl] (undoing the mount-path stripping of
    [app.use('/api', ...)]), rewritten, and joined to the path of the
    target ([url.parse(req.url).path] is the URL itself for a URL of
    plain characters); the headers as received after [deleteLength],
    except [connection] (set to [close] unless it asks for an upgrade)
    and, with [changeOrigin], [host]; the body as received, unless
    [deleteLength] has declared it empty. *)
Definition outgoing (o : proxy_options) (req : request) : proxy_request :=
  let hs := deleteLength req in
  let hs :=
    match hs !! "connection" with
    | Some c => if is_upgrade c then hs else <["connection" := "close"]> hs
    | None => <["connection" := "close"]> hs
    end in
  let hs := if changeOrigin o then <["host" := target_host (target o)]> hs else hs in
  {| preq_method := req_method req;
     preq_url := urlJoin (target_path (target o))
                   (rewritePath (pathRewrite o) (originalUrl req));
     preq_headers := hs;
     preq_body := if length_deleted req then EmptyString else req_body req |}.

(** The library's own error handler, used when the options give no
    [onError]: a plain-text message with a status chosen by error code.
    The message names the [Host] header of the request (the text
    [undefined] when there is none) and the URL. *)
Definition defaultErrorHandler (e : transport_error) (req : request) (hs : headers)
  : response :=
  {| status :=
       match e with
       | HPE_INVALID => 502
       | ECONNRESET | ENOTFOUND | ECONNREFUSED | ETIMEDOUT => 504
       | _ => 500
       end;
     res_headers := hs;
     body := "Error occurred while trying to proxy: "
             +:+ default "undefined" (req_headers req !! "host") +:+ originalUrl req |}.

(** The upstream's reply is relayed: its status and body, and its
    headers written over those already set on the response.  An error
    of the upstream connection goes to the error handler.  An upstream
    that accepts the request and never answers is not among the results:
    no response is written then, and no error handler runs (with
    [timeout] the idle socket of the incoming request is closed). *)
Definition createProxyMiddleware (o : proxy_options) : middleware := fun w req hs =>
  match upstream w (target o) (outgoing o req) with
  | Replied r =>
      End {| status := status r;
             res_headers := res_headers r ∪ hs;
             body := payload req (body r) |}
  | Failed e =>
      match onError o with
      | Some handler => End (handler e req hs)
      | None => End (defaultErrorHandler e req hs)
      end
  end.

(* ===================================================================== *)
(** * The two scripts                                                     *)
(* ===================================================================== *)

(** [process.env.PORT || 3000] is the variable's text, or the number. *)
Inductive port_value : Type :=
| PortNumber (n : Z)
| PortText (s : string).

Definition port_or (e : gmap string string) (fallback : Z) : port_value :=
  match e !! "PORT" with
  | Some v => if String.eqb v "" then PortNumber fallback else PortText v
  | None => PortNumber fallback
  end.

(** The server that [app.listen(PORT, '0.0.0.0')] starts.  ([express()]
    also reads [NODE_ENV] when the application is created: it selects
    what an error page prints, see [finalhandler].) *)
Record gateway : Type := Gateway {
  PORT : port_value;
  host : string;
  app : list layer
}.

(** Both scripts register the same two route handlers. *)

(** [app.get('/', (req, res) => res.sendFile(path.join(__dirname, 'index.html')))] *)
Definition index_route (dirname : string) : middleware :=
  res_sendFile (path_join dirname "index.html").

(** [app.get('/health', (req, res) => res.json({ status: 'ok',
      service: 'frontend', timestamp: new Date().toISOString() }))] *)
Definition health_body (timestamp : string) : JSON.json :=
  JSON.JObject [ ("status", JSON.JString "ok");
                 ("service", JSON.JString "frontend");
                 ("timestamp", JSON.JString timestamp) ].

Definition health_route : middleware := fun w req hs =>
  match JSDate.toISOString (now w) with
  | Some timestamp => End (res_json 200 (health_body timestamp) req hs)
  | None => Throw {| err_status := 500; err_message := "Invalid time value" |} hs
  end.

(** The layers of either script, in the order of registration, for the
    proxy options [o] of that script. *)
Definition script_layers (dirname : string) (o : proxy_options) : list layer :=
  [ Use "/" cors;
    Use "/" (express_static dirname);
    Use "/api" (createProxyMiddleware o);
    Get "/" (index_route dirname);
    Get "/health" health_route ].

(** ** server-monitor/frontend/server.js *)
Module ServerJs.

Definition proxy : proxy_options :=
  {| target := "http://backend:5000";
     changeOrigin := true;
     pathRewrite := [("/api", "/api")];
     onError := None;
     timeout := None |}.

Definition startup (p : process) : gateway :=
  {| PORT := port_or (env p) 3000;
     host := "0.0.0.0";
     app :=
       [ Use "/" cors;
         Use "/" (express_static (__dirname p));
         Use "/api" (createProxyMiddleware proxy);
         Get "/" (index_route (__dirname p));
         Get "/health" health_route ] |}.

End ServerJs.

(** ** The revised script (repaired proxy configuration) *)
Module Part001.

(** [onError: (err, req, res) => { console.error(...);
      res.status(500).json({ error: '后端服务连接失败' }) }] *)
Definition error_message : string := "后端服务连接失败".

Definition proxy_onError (e : transport_error) (req : request) (hs : headers)
  : response :=
  res_json 500 (JSON.JObject [("error", JSON.JString error_message)]) req hs.

Definition proxy (e : gmap string string) : proxy_options :=
  {| target := env_or e "BACKEND_URL" "http://192.168.211.149:5000";
     changeOrigin := true;
     pathRewrite := [("/api", "/api")];
     onError := Some proxy_onError;
     timeout := Some 10000 |}.

Definition startup (p : process) : gateway :=
  {| PORT := port_or (env p) 3000;
     host := "0.0.0.0";
     app :=
       [ Use "/" cors;
         Use "/" (express_static (__dirname p));
         Use "/api" (createProxyMiddleware (proxy (env p)));
         Get "/" (index_route (__dirname p));
         Get "/health" health_route ] |}.

End Part001.

(** ** Serving *)

(** One request: the response starts with no header set. *)
Definition handle (g : gateway) (w : world) (req : request) : response :=
  dispatch (app g) w req ∅.

(** The server loop over the requests as they arrive, each with the
    environment it arrives in: the server as it is after the request,
    and the response. *)
Definition serve_one (g : gateway) (ev : world * request) : gateway * response :=
  (g, handle g (fst ev) (snd ev)).

Fixpoint serve (g : gateway) (trace : list (world * request))
  : gateway * list response :=
  match trace with
  | [] => (g, [])
  | ev :: trace' =>
      let '(g1, r) := serve_one g ev in
      let '(g2, rs) := serve g1 trace' in
      (g2, r :: rs)
  end.

(** A plain request: no query, no header, no body. *)
Definition plain (m : method) (p : string) : request :=
  {| req_method := m; path := p; query := ""; req_headers := ∅; req_body := "" |}.

Definition answering_layer (g : gateway) (w : world) (req : request) : option nat :=
  fst (route (app g) w req ∅ 0).

(** Positions of the layers in either script. *)
Definition cors_layer : nat := 0.
Definition static_layer : nat := 1.
Definition proxy_layer : nat := 2.
Definition index_layer : nat := 3.
Definition health_layer : nat := 4.

(** The headers on the response once [cors()] has passed a request on. *)
Definition cors_headers : headers := <["access-control-allow-origin" := "*"]> ∅.

(** The two scripts started in a process, each with the options it
    gives to the proxy middleware. *)
Definition scripts (p : process) : list (gateway * proxy_options) :=
  [ (ServerJs.startup p, ServerJs.proxy);
    (Part001.startup p, Part001.proxy (env p)) ].

(** Whether the static middleware answers the request itself (with a
    file or a redirect) instead of passing it on. *)
Definition static_answers (root : string) (w : world) (req : request) : bool :=
  match express_static root w req ∅ with
  | Next _ => false
  | _ => true
  end.

(* ===================================================================== *)
(** * Vocabulary of the statements                                        *)
(* ===================================================================== *)

Definition is_get (m : method) : bool :=
  match m with GET | HEAD => true | _ => false end.

Fixpoint has_char (c : ascii) (s : string) : bool :=
  match s with
  | EmptyString => false
  | String a s' => Ascii.eqb a c || has_char c s'
  end.

(** A name that a directory entry can have and that [path.normalize]
    leaves alone. *)
Definition plain_segment (seg : string) : bool :=
  negb (String.eqb seg "") && negb (String.eqb seg ".") && negb (String.eqb seg "..")
  && negb (has_char "/" seg) && negb (contains_nul seg).

(** The URL path of the file [parts] below the asset root. *)
Definition asset_url (parts : list string) : string := "/" +:+ Str.join "/" parts.

(** A file below the asset root whose own name does not begin with a
    dot. *)
Definition visible_file (parts : list string) : bool :=
  match parts with
  | [] => false
  | _ => forallb plain_segment parts && negb (dotfile parts)
  end.

Fixpoint all_chars (f : ascii → bool) (s : string) : bool :=
  match s with
  | EmptyString => true
  | String c s' => f c && all_chars f s'
  end.

Definition is_digit (c : ascii) : bool :=
  let n := N_of_ascii c in ((48 <=? n) && (n <=? 57))%N.

Definition is_lower (c : ascii) : bool :=
  let n := N_of_ascii c in ((97 <=? n) && (n <=? 122))%N.

Definition is_upper (c : ascii) : bool :=
  let n := N_of_ascii c in ((65 <=? n) && (n <=? 90))%N.

(** The characters of a path that stand for themselves everywhere:
    letters, digits, [-], [.], [_], [~], and the slash between segments.
    [url.parse], [encodeUrl] and the percent-decoding of [send] leave
    them alone. *)
Definition path_char (c : ascii) : bool :=
  is_digit c || is_lower c || is_upper c
  || Ascii.eqb c "-" || Ascii.eqb c "." || Ascii.eqb c "_" || Ascii.eqb c "~"
  || Ascii.eqb c "/".

Definition query_char (c : ascii) : bool :=
  path_char c || Ascii.eqb c "=" || Ascii.eqb c "&".

Fixpoint has_double_slash (s : string) : bool :=
  match s with
  | EmptyString => false
  | String c s' => Ascii.eqb c "/" && Str.starts_with "/" s' || has_double_slash s'
  end.

(** A URL of plain characters: a path of [path_char]s without an empty
    segment, and no query or a question mark followed by plain
    characters, [=] and [&]. *)
Definition plain_url (req : request) : bool :=
  all_chars path_char (path req) && negb (has_double_slash (path req))
  && (String.eqb (query req) ""
      || Str.starts_with "?" (query req) && all_chars query_char (Str.drop 1 (query req))).

Definition name_char (c : ascii) : bool :=
  is_digit c || is_lower c || Ascii.eqb c "-" || Ascii.eqb c ".".

(** A target that names an origin and nothing more: [http://] or
    [https://], a host name in lower case and, if any, a port; no user,
    no path, no query. *)
Definition origin_target (url : string) : bool :=
  (Str.starts_with "http://" url || Str.starts_with "https://" url)
  && (let '(name, port) := Str.break ":" (after_scheme url) in
      negb (String.eqb name "") && all_chars name_char name
      && (String.length (after_scheme url) <=? 63)%nat
      && (String.eqb port ""
          || negb (String.eqb (Str.drop 1 port) "") && all_chars is_digit (Str.drop 1 port))).

Definition allows_any_origin (hs : headers) : Prop :=
  hs !! "access-control-allow-origin" = Some "*".

(** A middleware keeps the header when whatever it does (pass on, raise,
    end the response) leaves it set. *)
Definition keeps_header (f : middleware) (w : world) (req : request) : Prop :=
  ∀ hs, allows_any_origin hs →
    match f w req hs with
    | Next hs' => allows_any_origin hs'
    | Throw _ hs' => allows_any_origin hs'
    | End r => allows_any_origin (res_headers r)
    end.

(* ===================================================================== *)
(** * Concrete processes and environments                                 *)
(* ===================================================================== *)

Module Examples.

(** The container of the Dockerfile: the script runs in [/app], no
    variable set. *)
Definition container : process := {| env := ∅; __dirname := "/app" |}.

Definition refusing : string → proxy_request → upstream_result :=
  fun _ _ => Failed ECONNREFUSED.

Definition world_of (files : gmap string node) (up : string → proxy_request → upstream_result)
    (t : Z) (Ht : JSDate.valid_time t = true) : world :=
  {| fs := files; upstream := up; now := t; now_valid := Ht; env_now := ∅ |}.

(** 2023-11-14T22:13:20.000Z *)
Definition t0 : Z := 1700000000000.

Definition image : gmap string node :=
  {[ "/app" := Directory;
     "/app/package.json" := File "{}";
     "/app/server.js" := File "const express = require('express');";
     "/app/index.html" := File "<html>OK</html>" ]}.

Definition deployed : world := world_of image refusing t0 eq_refl.

(** The same image with one more asset, a file named [health]. *)
Definition with_health_asset : world :=
  world_of (<["/app/health" := File "shadow"]> image) refusing t0 eq_refl.

(** The same image with a file named [health] that is not JSON. *)
Definition with_health_page : world :=
  world_of (<["/app/health" := File "<html>health</html>"]> image) refusing t0 eq_refl.

(** The clock one second after [t0], and set back by one hour. *)
Definition later : world := world_of image refusing (t0 + 1000) eq_refl.
Definition clock_set_back : world := world_of image refusing (t0 - 3600000) eq_refl.

(** The image with an environment file next to the script. *)
Definition with_env_file : world :=
  world_of (<["/app/.env" := File "DB_PASSWORD=secret"]> image) refusing t0 eq_refl.

(** An upstream that answers every request with its URL. *)
Definition echo : string → proxy_request → upstream_result :=
  fun _ preq => Replied {| status := 200; res_headers := ∅;
                           body := "upstream " +:+ preq_url preq |}.

(** An upstream that names the one origin it allows. *)
Definition own_cors : string → proxy_request → upstream_result :=
  fun _ _ => Replied {| status := 200;
                        res_headers :=
                          {[ "access-control-allow-origin" := "https://example.org" ]};
                        body := "[]" |}.

Definition live : world := world_of image echo t0 eq_refl.

(** The image with a file [api/status] among the assets. *)
Definition with_api_asset : world :=
  world_of (<["/app/api/status" := File "cached"]> (<["/app/api" := Directory]> image))
    echo t0 eq_refl.

Definition behind_own_cors : world := world_of image own_cors t0 eq_refl.

(** A browser's request for the server list. *)
Definition api_status : request :=
  {| req_method := GET; path := "/api/status"; query := "";
     req_headers := {[ "host" := "localhost:3000" ]}; req_body := "" |}.

Definition keep_alive : request :=
  {| req_method := GET; path := "/api/status"; query := "";
     req_headers := {[ "connection" := "keep-alive" ]}; req_body := "" |}.

(** A cache asking whether anything it holds for the URL is still
    current. *)
Definition revalidate (p : string) : request :=
  {| req_method := GET; path := p; query := "";
     req_headers := {[ "if-none-match" := "*" ]}; req_body := "" |}.

(** The revised script started with a target that names a path. *)
Definition behind_prefix : process :=
  {| env := {[ "BACKEND_URL" := "http://backend:5000/v1" ]}; __dirname := "/app" |}.

(** The image with a hidden file below [/app/api]. *)
Definition with_hidden_api_file : world :=
  world_of (<["/app/api/.env" := File "TOKEN=secret"]> (<["/app/api" := Directory]> image))
    echo t0 eq_refl.

End Examples.

(** ** Further vocabulary and environments *)

(** A path segment that names an entry of a directory: not [..], and
    without a slash. *)
Definition entry_name (seg : string) : Prop :=
  seg ≠ ".." ∧ seg ≠ "." ∧ seg ≠ "" ∧ has_char "/" seg = false.

Module Scenarios.
Import Examples.

(** The image without its index document. *)
Definition without_index : world :=
  world_of (delete "/app/index.html" image) refusing t0 eq_refl.

(** A file outside the asset root. *)
Definition with_outside_file : world :=
  world_of (<["/etc/passwd" := File "root:x:0:0"]> image) refusing t0 eq_refl.

(** The same files and clock as [deployed], behind an upstream that
    answers. *)
Definition same_behind_echo : world := world_of image echo t0 eq_refl.

Definition preflight : request :=
  {| req_method := OPTIONS; path := "/api/servers"; query := "";
     req_headers := {[ "access-control-request-headers" := "content-type" ]};
     req_body := "" |}.

End Scenarios.

(* ===================================================================== *)
(** * server-monitor-2/backend/startup.sh: preparing the database         *)
(* ===================================================================== *)

(** The part of the backend's startup script that settles the database
    file before the server is started (lines 8 to 38): the path, the wait
    for the file, and the choice between initializing and skipping.  What
    the script cannot decide itself is given from outside: whether the
    file exists, second by second. *)
Module StartupSh.

(** [export DATABASE_PATH=${DATABASE_PATH:-/app/data/monitor.db}]: the
    default also replaces an empty value. *)
Definition database_path (e : gmap string string) : string :=
  env_or e "DATABASE_PATH" "/app/data/monitor.db".

Definition export_database_path (e : gmap string string) : gmap string string :=
  <["DATABASE_PATH" := database_path e]> e.

(** [os.getenv('DATABASE_PATH', '/app/data/monitor.db')] in the check run
    by the script: the default replaces an unset variable only. *)
Definition checked_path (e : gmap string string) : string :=
  default "/app/data/monitor.db" (e !! "DATABASE_PATH").

Definition timeout : nat := 30.

Definition waiting_line (counter : nat) : string :=
  "等待数据库文件就绪... (" +:+ pretty counter +:+ "/" +:+ pretty timeout +:+ ")".

(** [while [ ! -f "$DATABASE_PATH" ] && [ $counter -lt $timeout ]; do
      echo ...; sleep 1; counter=$((counter + 1)); done]

    [present t] tells whether the file exists [t] seconds after the loop
    was entered; every round sleeps one second, so the test of round
    [counter] sees [present counter], and so does the test that follows
    the loop when it ends at [counter].  [fuel] bounds the rounds run. *)
Fixpoint wait_loop (fuel : nat) (present : nat → bool) (counter : nat)
    (out : list string) : nat * list string :=
  match fuel with
  | O => (counter, out)
  | S fuel' =>
      if negb (present counter) && (counter <? timeout)%nat
      then wait_loop fuel' present (S counter) (out ++ [waiting_line counter])
      else (counter, out)
  end.

Record prepared : Type := Prepared {
  waited : nat;
  init_db : bool;
  output : list string
}.

(** Lines 17 to 38: the loop, then [if [ ! -f "$DATABASE_PATH" ]]. *)
Definition prepare_database (present : nat → bool) : prepared :=
  let '(counter, out) := wait_loop timeout present 0 [] in
  if negb (present counter)
  then {| waited := counter; init_db := true; output := out ++ ["初始化数据库..."] |}
  else {| waited := counter; init_db := false;
          output := out ++ ["数据库已存在，跳过初始化"] |}.

End StartupSh.

(* ===================================================================== *)
(** * server-monitor/frontend/Dockerfile: the image of the gateway        *)
(* ===================================================================== *)

(** The instructions the Dockerfile uses, and what [docker build] does
    with them: [WORKDIR] makes and enters a directory, [COPY] takes files
    of the build context into the image and fails when one is missing,
    [RUN] runs a command on the image's files, [EXPOSE] and [CMD] are
    recorded.  What a [RUN] command does to the files is given from
    outside ([None]: the command fails, and the build with it). *)
Module Dockerfile.

Inductive instruction : Type :=
| FROM (base : string)
| WORKDIR (dir : string)
| COPY (sources : list string) (dest : string)
| RUN (command : string)
| EXPOSE (port : Z)
| CMD (argv : list string).

Record image : Type := Image {
  workdir : string;
  files : gmap string node;
  exposed : list Z;
  cmd : list string
}.

(** The last segment of a source path. *)
Definition basename (src : string) : string :=
  default src (last (Str.split "/" src)).

(** The directory a [COPY] destination names: absolute, or relative to
    the working directory ([./] is the working directory itself). *)
Definition dest_dir (workdir dest : string) : string :=
  if Str.starts_with "/" dest then dest
  else if String.eqb dest "./" || String.eqb dest "." then workdir
  else path_join workdir (if Str.starts_with "./" dest then Str.drop 2 dest else dest).

Fixpoint copy (context : gmap string string) (sources : list string) (dir : string)
    (fs : gmap string node) : option (gmap string node) :=
  match sources with
  | [] => Some fs
  | src :: sources' =>
      match context !! src with
      | Some content =>
          copy context sources' dir (<[path_join dir (basename src) := File content]> fs)
      | None => None
      end
  end.

Definition step (run : string → gmap string node → option (gmap string node))
    (context : gmap string string) (img : image) (i : instruction) : option image :=
  match i with
  | FROM _ => Some img
  | WORKDIR dir =>
      Some {| workdir := dir; files := <[dir := Directory]> (files img);
              exposed := exposed img; cmd := cmd img |}
  | COPY sources dest =>
      fs ← copy context sources (dest_dir (workdir img) dest) (files img);
      Some {| workdir := workdir img; files := fs;
              exposed := exposed img; cmd := cmd img |}
  | RUN command =>
      fs ← run command (files img);
      Some {| workdir := workdir img; files := fs;
              exposed := exposed img; cmd := cmd img |}
  | EXPOSE port =>
      Some {| workdir := workdir img; files := files img;
              exposed := exposed img ++ [port]; cmd := cmd img |}
  | CMD argv =>
      Some {| workdir := workdir img; files := files img;
              exposed := exposed img; cmd := argv |}
  end.

Fixpoint build (run : string → gmap string node → option (gmap string node))
    (context : gmap string string) (img : image) (instructions : list instruction)
  : option image :=
  match instructions with
  | [] => Some img
  | i :: instructions' =>
      img' ← step run context img i;
      build run context img' instructions'
  end.

(** The files of a base image, before any instruction. *)
Definition from_base (base : gmap string node) : image :=
  {| workdir := "/"; files := base; exposed := []; cmd := [] |}.

(** server-monitor/frontend/Dockerfile *)
Definition frontend : list instruction :=
  [ FROM "node:16-alpine";
    WORKDIR "/app";
    COPY ["package.json"; "server.js"] "./";
    COPY ["index.html"] "./";
    RUN "npm install --production";
    EXPOSE 3000;
    CMD ["npm"; "start"] ].

(** A command that only adds files: it leaves every file and directory
    that is already there as it is. *)
Definition only_adds (run : string → gmap string node → option (gmap string node)) : Prop :=
  ∀ command fs fs', run command fs = Some fs' →
    ∀ k n, fs !! k = Some n → fs' !! k = Some n.

(** An [npm install] that puts one package under [node_modules]. *)
Definition npm_install (command : string) (fs : gmap string node)
  : option (gmap string node) :=
  Some (fs ∪ {[ "/app/node_modules" := Directory;
                "/app/node_modules/express/index.js"
                  := File "module.exports = require('./lib/express');" ]}).

Definition sources : gmap string string :=
  {[ "package.json" := "{}";
     "server.js" := "const express = require('express');";
     "index.html" := "<html>OK</html>";
     "Dockerfile" := "FROM node:16-alpine" ]}.

(** The image built from [sources] on an empty base. *)
Definition example : image :=
  default (from_base ∅) (build npm_install sources (from_base ∅) frontend).

End Dockerfile.

(* ===================================================================== *)
(** * Properties of the date functions                                    *)
(* ===================================================================== *)

Module JSDateFacts.
Import JSDate.

Lemma append_cons (c : ascii) (s r : string) :
  String c s +:+ r = String c (s +:+ r).
Proof. reflexivity. Qed.

Lemma append_nil (r : string) : EmptyString +:+ r = r.
Proof. reflexivity. Qed.

Lemma append_assoc (a b c : string) : (a +:+ b) +:+ c = a +:+ (b +:+ c).
Proof. induction a as [|x a IH]; [reflexivity|]. rewrite !append_cons, IH. reflexivity. Qed.

Lemma digit_val_char (k : Z) : 0 <= k <= 9 → digit_val (digit_char k) = Some k.
Proof.
  intros Hk.
  assert (k = 0 ∨ k = 1 ∨ k = 2 ∨ k = 3 ∨ k = 4 ∨ k = 5 ∨ k = 6 ∨ k = 7 ∨ k = 8 ∨ k = 9)
    as Hc by lia.
  repeat (destruct Hc as [-> | Hc]; [reflexivity|]). subst k. reflexivity.
Qed.

Lemma read_digits_pad (n : nat) (v acc : Z) (rest : string) :
  read_digits n acc (pad n v +:+ rest)
  = Some (acc * 10 ^ Z.of_nat n + v mod 10 ^ Z.of_nat n, rest).
Proof.
  revert acc. induction n as [|n IH]; intros acc.
  - cbn [read_digits pad]. rewrite append_nil. f_equal. f_equal.
    change (10 ^ Z.of_nat 0) with 1. rewrite Z.mod_1_r. lia.
  - cbn [read_digits pad]. rewrite append_cons.
    assert (H10 : 0 < 10 ^ Z.of_nat n) by (apply Z.pow_pos_nonneg; lia).
    rewrite digit_val_char
      by (pose proof (Z.mod_pos_bound (v / 10 ^ Z.of_nat n) 10); lia).
    rewrite IH. f_equal. f_equal.
    rewrite Nat2Z.inj_succ, Z.pow_succ_r by lia.
    rewrite (Z.mul_comm 10 (10 ^ Z.of_nat n)), Z.rem_mul_r by lia. ring.
Qed.

Lemma read_digits_pad_small (n : nat) (v : Z) (rest : string) :
  0 <= v < 10 ^ Z.of_nat n →
  read_digits n 0 (pad n v +:+ rest) = Some (v, rest).
Proof.
  intros Hv. rewrite read_digits_pad, Z.mod_small by exact Hv. reflexivity.
Qed.

(** The calendar fields of a day number are in range, and [MakeDay]
    takes them back to the day number. *)
Lemma civil_from_days_spec (z : Z) :
  let '(y, m, d) := civil_from_days z in
  MakeDay y m d = z ∧ 1 <= m <= 12 ∧ 1 <= d <= DaysInMonth y m.
Proof.
  unfold civil_from_days, MakeDay, DayFromYear, DaysInMonth, InLeapYear, DaysInYear.
  set (z1 := z + 719468).
  set (era := z1 / 146097).
  set (doe := z1 - era * 146097).
  set (yoe := (doe - doe / 1460 + doe / 36524 - doe / 146096) / 365).
  set (doy := doe - (365 * yoe + yoe / 4 - yoe / 100)).
  set (mp := (5 * doy + 2) / 153).
  assert (Hdoe : 0 <= doe < 146097)
    by (subst doe era; pose proof (Z.mod_pos_bound z1 146097);
        pose proof (Z.div_mod z1 146097); lia).
  assert (Hyoe : 0 <= yoe <= 399) by (subst yoe; Z.div_mod_to_equations; lia).
  assert (Hdoy : 0 <= doy <= 365) by (subst doy yoe; Z.div_mod_to_equations; lia).
  assert (Hmp : 0 <= mp <= 11) by (subst mp; Z.div_mod_to_equations; lia).
  assert (Hz : z = doe + era * 146097 - 719468) by (subst doe z1; lia).
  clearbody doe era. clear z1. subst z.
  set (m := if mp <? 10 then mp + 3 else mp - 9).
  assert (Hm : mp = if m <=? 2 then m + 9 else m - 3)
    by (subst m; clearbody mp; destruct (mp <? 10) eqn:E;
        [apply Z.ltb_lt in E | apply Z.ltb_ge in E];
        match goal with |- context [?a <=? ?b] => destruct (Z.leb_spec a b) end;
        lia).
  assert (Hc : m = 1 ∨ m = 2 ∨ m = 3 ∨ m = 4 ∨ m = 5 ∨ m = 6 ∨ m = 7 ∨ m = 8
               ∨ m = 9 ∨ m = 10 ∨ m = 11 ∨ m = 12)
    by (subst m; clearbody mp; destruct (Z.ltb_spec mp 10); lia).
  clearbody m.
  set (y := if m <=? 2 then yoe + era * 400 + 1 else yoe + era * 400).
  assert (Hy : y = if m <=? 2 then yoe + era * 400 + 1 else yoe + era * 400)
    by reflexivity.
  clearbody y.
  destruct Hc as [Hc|[Hc|[Hc|[Hc|[Hc|[Hc|[Hc|[Hc|[Hc|[Hc|[Hc|Hc]]]]]]]]]]];
    subst m; cbn [Z.leb Z.compare Pos.compare Pos.compare_cont] in Hm, Hy;
    cbv [month_start];
    (destruct (negb (y mod 4 =? 0)) eqn:E4;
     [| destruct (negb (y mod 100 =? 0)) eqn:E100;
        [| destruct (negb (y mod 400 =? 0)) eqn:E400]]);
    rewrite ?negb_true_iff, ?negb_false_iff, ?Z.eqb_eq, ?Z.eqb_neq in *;
    cbn [Z.eqb Pos.eqb];
    subst y mp doy yoe; Z.div_mod_to_equations; lia.
Qed.

Lemma time_fields (t : Z) :
  0 <= HourFromTime t <= 23 ∧ 0 <= MinFromTime t <= 59 ∧ 0 <= SecFromTime t <= 59
  ∧ 0 <= msFromTime t <= 999
  ∧ MakeDate (Day t)
      (MakeTime (HourFromTime t) (MinFromTime t) (SecFromTime t) (msFromTime t)) = t.
Proof.
  unfold HourFromTime, MinFromTime, SecFromTime, msFromTime, MakeDate, MakeTime, Day,
    msPerDay, msPerHour, msPerMinute, msPerSecond.
  change 86400000 with (1000 * 60 * 60 * 24).
  change 3600000 with (1000 * 60 * 60).
  change 60000 with (1000 * 60).
  rewrite <- !Z.div_div by lia.
  set (a := t / 1000). set (b := a / 60). set (c := b / 60).
  pose proof (Z.div_mod t 1000 ltac:(lia)). pose proof (Z.mod_pos_bound t 1000 ltac:(lia)).
  pose proof (Z.div_mod a 60 ltac:(lia)). pose proof (Z.mod_pos_bound a 60 ltac:(lia)).
  pose proof (Z.div_mod b 60 ltac:(lia)). pose proof (Z.mod_pos_bound b 60 ltac:(lia)).
  pose proof (Z.div_mod c 24 ltac:(lia)). pose proof (Z.mod_pos_bound c 24 ltac:(lia)).
  fold a in H. fold b in H1. fold c in H3.
  lia.
Qed.

Lemma year_bounds (t : Z) :
  valid_time t = true → -272000 <= YearFromTime t <= 276000.
Proof.
  unfold valid_time, maxTime, YearFromTime, civil_from_days, Day, msPerDay.
  intros Ht%Z.leb_le. cbn [fst snd].
  set (z1 := t / 86400000 + 719468).
  set (era := z1 / 146097).
  set (doe := z1 - era * 146097).
  set (yoe := (doe - doe / 1460 + doe / 36524 - doe / 146096) / 365).
  assert (Hdoe : 0 <= doe < 146097)
    by (subst doe era; pose proof (Z.mod_pos_bound z1 146097);
        pose proof (Z.div_mod z1 146097); lia).
  assert (Hyoe : 0 <= yoe <= 399) by (subst yoe; Z.div_mod_to_equations; lia).
  assert (Hera : -680 <= era <= 689)
    by (subst era z1; Z.div_mod_to_equations; lia).
  clearbody yoe era.
  match goal with |- context [if ?b then yoe + _ + 1 else _] => destruct b end; lia.
Qed.

Lemma DaysInMonth_le (y m : Z) : DaysInMonth y m <= 31.
Proof.
  unfold DaysInMonth.
  repeat match goal with
         | |- context [match ?p with _ => _ end] => destruct p
         end; lia.
Qed.

Lemma expect_cons (c : ascii) (rest : string) :
  expect c (String c EmptyString +:+ rest) = Some rest.
Proof.
  rewrite append_cons, append_nil. unfold expect. rewrite Ascii.eqb_refl. reflexivity.
Qed.

Lemma read_year_string (y : Z) (rest : string) :
  -999999 <= y <= 999999 →
  read_year (year_string y +:+ rest) = Some (y, rest).
Proof.
  intros Hy. unfold year_string.
  destruct (Z.leb_spec 0 y) as [H0|H0]; [destruct (Z.leb_spec y 9999) as [H1|H1]|];
    cbn [andb].
  - transitivity (read_digits 4 0 (pad 4 y +:+ rest)).
    + change (pad 4 y) with (String (digit_char (y / 10 ^ 3 mod 10)) (pad 3 y)).
      rewrite append_cons.
      pose proof (Z.mod_pos_bound (y / 10 ^ 3) 10 ltac:(lia)) as Hk.
      set (k := y / 10 ^ 3 mod 10) in *.
      assert (k = 0 ∨ k = 1 ∨ k = 2 ∨ k = 3 ∨ k = 4 ∨ k = 5 ∨ k = 6 ∨ k = 7
              ∨ k = 8 ∨ k = 9) as Hc by lia.
      clearbody k.
      repeat (destruct Hc as [-> | Hc]; [reflexivity|]). subst k. reflexivity.
    + apply read_digits_pad_small. change (10 ^ Z.of_nat 4) with 10000. lia.
  - destruct (Z.ltb_spec y 0); [lia|].
    rewrite append_assoc, append_cons, append_nil. cbn [read_year].
    rewrite read_digits_pad_small
      by (change (10 ^ Z.of_nat 6) with 1000000; lia).
    f_equal. f_equal. lia.
  - destruct (Z.ltb_spec y 0); [|lia].
    rewrite append_assoc, append_cons, append_nil. cbn [read_year].
    rewrite read_digits_pad_small
      by (change (10 ^ Z.of_nat 6) with 1000000; lia).
    cbn [mbind option_bind].
    destruct (Z.eqb_spec (Z.abs y) 0); [lia|].
    f_equal. f_equal. lia.
Qed.

Local Arguments pad : simpl never.

(** Reading back what [toISOString] prints gives the time value. *)
Lemma parse_toISOString (t : Z) (s : string) :
  toISOString t = Some s → parse_iso8601 s = Some t.
Proof.
  unfold toISOString. destruct (valid_time t) eqn:Hv; [|discriminate].
  intros [= <-].
  pose proof (year_bounds t Hv) as Hy.
  pose proof (civil_from_days_spec (Day t)) as Hc.
  pose proof (time_fields t) as (Hh & Hmi & Hs & Hms & Ht).
  unfold YearFromTime, MonthFromTime, DateFromTime in *.
  destruct (civil_from_days (Day t)) as [[y m] d]. cbn [fst snd] in *.
  destruct Hc as (Hday & Hm & Hd).
  pose proof (DaysInMonth_le y m) as Hd31.
  unfold parse_iso8601.
  rewrite read_year_string by lia. cbn [mbind option_bind].
  rewrite expect_cons. cbn [mbind option_bind].
  rewrite read_digits_pad_small by (change (10 ^ Z.of_nat 2) with 100; lia).
  cbn [mbind option_bind].
  rewrite expect_cons. cbn [mbind option_bind].
  rewrite read_digits_pad_small by (change (10 ^ Z.of_nat 2) with 100; lia).
  cbn [mbind option_bind].
  rewrite expect_cons. cbn [mbind option_bind].
  rewrite read_digits_pad_small by (change (10 ^ Z.of_nat 2) with 100; lia).
  cbn [mbind option_bind].
  rewrite expect_cons. cbn [mbind option_bind].
  rewrite read_digits_pad_small by (change (10 ^ Z.of_nat 2) with 100; lia).
  cbn [mbind option_bind].
  rewrite expect_cons. cbn [mbind option_bind].
  rewrite read_digits_pad_small by (change (10 ^ Z.of_nat 2) with 100; lia).
  cbn [mbind option_bind].
  rewrite expect_cons. cbn [mbind option_bind].
  rewrite read_digits_pad_small by (change (10 ^ Z.of_nat 3) with 1000; lia).
  cbn [mbind option_bind].
  change (expect "Z" "Z") with (Some EmptyString). cbn [mbind option_bind].
  change (String.eqb "" "") with true. cbn [negb].
  rewrite (proj2 (Z.leb_le 1 m)), (proj2 (Z.leb_le m 12)),
    (proj2 (Z.leb_le 1 d)), (proj2 (Z.leb_le d _)),
    (proj2 (Z.leb_le _ 23)), (proj2 (Z.leb_le _ 59)), (proj2 (Z.leb_le _ 59))
    by lia.
  cbn [andb negb]. rewrite Hday, Ht. reflexivity.
Qed.

Corollary toISOString_is_iso8601 (t : Z) (s : string) :
  toISOString t = Some s → is_iso8601 s = true.
Proof. intros H. unfold is_iso8601. rewrite (parse_toISOString t s H). reflexivity. Qed.

Lemma toISOString_valid (t : Z) :
  valid_time t = true → ∃ s, toISOString t = Some s.
Proof. intros H. unfold toISOString. rewrite H. eauto. Qed.

End JSDateFacts.

(* ===================================================================== *)
(** * Dispatch through the layers of the scripts                          *)
(* ===================================================================== *)

Lemma scripts_layers (p : process) (g : gateway) (o : proxy_options) :
  In (g, o) (scripts p) → app g = script_layers (__dirname p) o.
Proof.
  unfold scripts. cbn [In].
  intros [[= <- <-] | [[= <- <-] | []]]; reflexivity.
Qed.

Lemma route_cons (l : layer) (stack : list layer) (w : world) (req : request)
    (hs : headers) (i : nat) :
  route (l :: stack) w req hs i =
  if layer_matches l req then
    match layer_handle l w req hs with
    | Next hs' => route stack w req hs' (S i)
    | Throw e hs' => (Some i, finalhandler (Some e) req hs')
    | End r => (Some i, r)
    end
  else route stack w req hs (S i).
Proof. reflexivity. Qed.

Lemma cors_passes (w : world) (req : request) (hs : headers) :
  req_method req ≠ OPTIONS →
  cors w req hs = Next (<["access-control-allow-origin" := "*"]> hs).
Proof. intros H. unfold cors. destruct (req_method req); congruence. Qed.

(** The static middleware either passes the request on, leaving the
    headers as they are, or ends the response; it raises no error. *)
Lemma express_static_cases (root : string) (w : world) (req : request) (hs : headers) :
  (static_answers root w req = false ∧ express_static root w req hs = Next hs)
  ∨ (static_answers root w req = true ∧ ∃ r, express_static root w req hs = End r).
Proof.
  unfold static_answers, express_static.
  destruct (req_method req); try (left; split; reflexivity);
    (destruct (contains_nul (path req)); [left; split; reflexivity|];
     destruct (normalize (path req)) as [parts|]; [|left; split; reflexivity];
     destruct (Str.ends_with_slash (path req));
     [destruct (fs w !! resolve root (parts ++ ["index.html"])) as [[c|]|];
      [right; split; [reflexivity|eauto] | left; split; reflexivity ..]
     |destruct (dotfile parts); [left; split; reflexivity|];
      destruct (fs w !! resolve root parts) as [[c|]|];
      [right; split; [reflexivity|eauto] .. | left; split; reflexivity]]).
Qed.

Lemma express_static_declines (root : string) (w : world) (req : request) (hs : headers) :
  static_answers root w req = false → express_static root w req hs = Next hs.
Proof.
  intros H. destruct (express_static_cases root w req hs) as [[_ ?]|[? _]]; congruence.
Qed.

(** Past [cors()] and the static middleware: what is left of the stack
    sees the request with the CORS header set. *)
Lemma route_past_static (root : string) (o : proxy_options) (w : world) (req : request) :
  req_method req ≠ OPTIONS →
  static_answers root w req = false →
  route (script_layers root o) w req ∅ 0 =
  route [ Use "/api" (createProxyMiddleware o);
          Get "/" (index_route root);
          Get "/health" health_route ] w req cors_headers 2.
Proof.
  intros Hm Hs. unfold script_layers.
  rewrite route_cons. cbn [layer_matches layer_handle].
  change (match_mount "/" (path req)) with true. cbv iota.
  rewrite cors_passes by exact Hm.
  rewrite route_cons. cbn [layer_matches layer_handle].
  change (match_mount "/" (path req)) with true. cbv iota.
  rewrite express_static_declines by exact Hs. reflexivity.
Qed.

(** No asset named [health]: the static middleware passes a request
    for [/health] on. *)
Lemma static_health_absent (root : string) (w : world) (req : request) :
  path req = "/health" →
  fs w !! path_join root "health" = None →
  static_answers root w req = false.
Proof.
  intros Hp Hfs. unfold static_answers, express_static. rewrite Hp.
  change (contains_nul "/health") with false.
  change (normalize "/health") with (Some ["health"]).
  change (Str.ends_with_slash "/health") with false. cbv beta iota.
  change (dotfile ["health"]) with false.
  change (resolve root ["health"]) with (path_join root "health"). cbv beta iota.
  rewrite Hfs. destruct (req_method req); reflexivity.
Qed.

Lemma route_health (p : process) (g : gateway) (o : proxy_options)
    (w : world) (req : request) :
  In (g, o) (scripts p) →
  req_method req = GET → path req = "/health" →
  fs w !! path_join (__dirname p) "health" = None →
  route (app g) w req ∅ 0 =
  (Some health_layer,
   match JSDate.toISOString (now w) with
   | Some timestamp => res_json 200 (health_body timestamp) req cors_headers
   | None => finalhandler (Some {| err_status := 500; err_message := "Invalid time value" |})
               req cors_headers
   end).
Proof.
  intros Hg Hm Hp Hfs.
  rewrite (scripts_layers p g o Hg).
  rewrite route_past_static
    by (try (rewrite Hm; discriminate); eauto using static_health_absent).
  rewrite !route_cons. cbn [layer_matches layer_handle]. rewrite Hm, Hp.
  change (match_mount "/api" "/health") with false.
  change (match_route "/" "/health") with false.
  change (match_route "/health" "/health") with true. cbv iota.
  unfold health_route, health_layer.
  destruct (JSDate.toISOString (now w)); reflexivity.
Qed.

(* ===================================================================== *)
(** * The liveness probe                                                  *)
(* ===================================================================== *)

(** An asset named [health] is answered by the static middleware. *)
Lemma static_health_present (root : string) (w : world) (req : request) (n : node) :
  req_method req = GET → path req = "/health" →
  fs w !! path_join root "health" = Some n →
  static_answers root w req = true.
Proof.
  intros Hm Hp Hfs. unfold static_answers, express_static. rewrite Hm, Hp.
  change (contains_nul "/health") with false.
  change (normalize "/health") with (Some ["health"]).
  change (Str.ends_with_slash "/health") with false. cbv beta iota.
  change (dotfile ["health"]) with false.
  change (resolve root ["health"]) with (path_join root "health"). cbv beta iota.
  rewrite Hfs. destruct n; reflexivity.
Qed.

Lemma route_static_answers (root : string) (o : proxy_options) (w : world) (req : request) :
  req_method req ≠ OPTIONS →
  static_answers root w req = true →
  fst (route (script_layers root o) w req ∅ 0) = Some static_layer.
Proof.
  intros Hm Hs. unfold script_layers.
  rewrite route_cons. cbn [layer_matches layer_handle].
  change (match_mount "/" (path req)) with true. cbv iota.
  rewrite cors_passes by exact Hm.
  rewrite route_cons. cbn [layer_matches layer_handle].
  change (match_mount "/" (path req)) with true. cbv iota.
  destruct (express_static_cases root w req cors_headers) as [[? _]|[_ [r Hr]]];
    [congruence|].
  unfold cors_headers in Hr. rewrite Hr. reflexivity.
Qed.

(** C1 (as amended).  In both scripts the probe route is registered
    last, after the static middleware, the proxy and the index route: a
    GET for [/health] is offered to the static middleware first.  It
    reaches the probe handler exactly when the asset root has no entry
    named [health]; otherwise the static middleware answers it.  The
    proxy rule never takes it. *)
Theorem health_answering_layer (p : process) (g : gateway) (o : proxy_options)
    (w : world) (req : request) :
  In (g, o) (scripts p) →
  req_method req = GET → path req = "/health" →
  answering_layer g w req =
  match fs w !! path_join (__dirname p) "health" with
  | None => Some health_layer
  | Some _ => Some static_layer
  end.
Proof.
  intros Hg Hm Hp. unfold answering_layer.
  destruct (fs w !! path_join (__dirname p) "health") as [n|] eqn:Hfs.
  - rewrite (scripts_layers p g o Hg).
    apply route_static_answers; [rewrite Hm; discriminate|].
    eauto using static_health_present.
  - rewrite (route_health p g o w req Hg Hm Hp Hfs). reflexivity.
Qed.

Lemma health_answering_layer_witness :
  answering_layer (Part001.startup Examples.container) Examples.deployed
    (plain GET "/health") = Some health_layer.
Proof.
  exact (health_answering_layer Examples.container _ _ Examples.deployed
           (plain GET "/health") (or_intror (or_introl eq_refl)) eq_refl eq_refl).
Defined.

(** C1 (as stated) fails: with an asset named [health] in the asset
    root, a GET for [/health] stops at the static middleware and is
    answered with the file. *)
Lemma health_shadowed_by_asset :
  answering_layer (Part001.startup Examples.container) Examples.with_health_asset
    (plain GET "/health") = Some static_layer
  ∧ answering_layer (Part001.startup Examples.container) Examples.with_health_asset
      (plain GET "/health") ≠ Some health_layer
  ∧ body (handle (Part001.startup Examples.container) Examples.with_health_asset
            (plain GET "/health")) = "shadow".
Proof. split; [|split]; [vm_compute; reflexivity | vm_compute; discriminate | vm_compute; reflexivity]. Qed.

(** Without [If-None-Match] no request is fresh: the responses of
    [res.send] carry no [Last-Modified] for an [If-Modified-Since] to
    meet. *)
Lemma fresh_needs_none_match (hs : headers) (etag : string) :
  header hs "if-none-match" = None → fresh hs etag = false.
Proof.
  intros H. unfold fresh. rewrite H.
  destruct (header hs "if-modified-since"); [|reflexivity].
  destruct (no_cache hs); reflexivity.
Qed.

Lemma res_json_sent (code : Z) (obj : JSON.json) (req : request) (hs : headers) :
  header (req_headers req) "if-none-match" = None →
  res_json code obj req hs =
  {| status := code;
     res_headers := <["content-type" := "application/json; charset=utf-8"]> hs;
     body := payload req (JSON.stringify obj) |}.
Proof.
  intros H. unfold res_json, req_fresh.
  rewrite (fresh_needs_none_match _ _ H), andb_false_r.
  destruct (req_method req); reflexivity.
Qed.

Lemma handle_health (p : process) (g : gateway) (o : proxy_options)
    (w : world) (req : request) :
  In (g, o) (scripts p) →
  req_method req = GET → path req = "/health" →
  fs w !! path_join (__dirname p) "health" = None →
  header (req_headers req) "if-none-match" = None →
  ∃ timestamp,
    JSDate.toISOString (now w) = Some timestamp
    ∧ JSDate.parse_iso8601 timestamp = Some (now w)
    ∧ handle g w req =
      {| status := 200;
         res_headers := <["content-type" := "application/json; charset=utf-8"]> cors_headers;
         body := JSON.stringify (health_body timestamp) |}.
Proof.
  intros Hg Hm Hp Hfs Hnm.
  destruct (JSDateFacts.toISOString_valid (now w) (now_valid w)) as [ts Hts].
  exists ts. split; [exact Hts|]. split; [exact (JSDateFacts.parse_toISOString _ _ Hts)|].
  unfold handle, dispatch. rewrite (route_health p g o w req Hg Hm Hp Hfs), Hts.
  cbn [snd]. rewrite (res_json_sent _ _ _ _ Hnm). unfold payload. rewrite Hm. reflexivity.
Qed.

(** C5 (as amended).  In both scripts, every GET for [/health] that
    the static middleware does not answer (the asset root has no entry
    named [health]) and that carries no [If-None-Match] header returns
    status 200 with a JSON body that consists of exactly [status: "ok"],
    [service: "frontend"] and [timestamp], the current time printed by
    [toISOString]; that text is a valid ISO-8601 date-time and denotes
    the current time. *)
Theorem health_response (p : process) (g : gateway) (o : proxy_options)
    (w : world) (req : request) :
  In (g, o) (scripts p) →
  req_method req = GET → path req = "/health" →
  fs w !! path_join (__dirname p) "health" = None →
  header (req_headers req) "if-none-match" = None →
  ∃ timestamp,
    JSDate.toISOString (now w) = Some timestamp
    ∧ JSDate.is_iso8601 timestamp = true
    ∧ JSDate.parse_iso8601 timestamp = Some (now w)
    ∧ status (handle g w req) = 200
    ∧ res_headers (handle g w req) !! "content-type"
      = Some "application/json; charset=utf-8"
    ∧ body (handle g w req) =
      JSON.stringify
        (JSON.JObject [ ("status", JSON.JString "ok");
                        ("service", JSON.JString "frontend");
                        ("timestamp", JSON.JString timestamp) ]).
Proof.
  intros Hg Hm Hp Hfs Hnm.
  destruct (handle_health p g o w req Hg Hm Hp Hfs Hnm) as (ts & Hts & Hparse & Hr).
  exists ts. rewrite Hr. cbn [status res_headers body].
  split; [exact Hts|].
  split; [exact (JSDateFacts.toISOString_is_iso8601 _ _ Hts)|].
  split; [exact Hparse|].
  split; [reflexivity|].
  split; [apply lookup_insert_eq | reflexivity].
Qed.

Lemma health_response_witness :
  ∃ timestamp,
    JSDate.toISOString (now Examples.deployed) = Some timestamp
    ∧ JSDate.is_iso8601 timestamp = true
    ∧ JSDate.parse_iso8601 timestamp = Some (now Examples.deployed)
    ∧ status (handle (ServerJs.startup Examples.container) Examples.deployed
                (plain GET "/health")) = 200
    ∧ res_headers (handle (ServerJs.startup Examples.container) Examples.deployed
                     (plain GET "/health")) !! "content-type"
      = Some "application/json; charset=utf-8"
    ∧ body (handle (ServerJs.startup Examples.container) Examples.deployed
              (plain GET "/health")) =
      JSON.stringify
        (JSON.JObject [ ("status", JSON.JString "ok");
                        ("service", JSON.JString "frontend");
                        ("timestamp", JSON.JString timestamp) ]).
Proof.
  exact (health_response Examples.container _ _ Examples.deployed
           (plain GET "/health") (or_introl eq_refl) eq_refl eq_refl eq_refl eq_refl).
Defined.

(** C5 (as stated) fails in two ways.  With a file named [health] in
    the asset root the response to GET [/health] is that file, which is
    not the probe's JSON for any timestamp; and a GET for [/health] with
    [If-None-Match: *] is answered 304 without a body. *)
Lemma health_response_shadowed :
  (answering_layer (Part001.startup Examples.container) Examples.with_health_page
     (plain GET "/health") = Some static_layer
   ∧ body (handle (Part001.startup Examples.container) Examples.with_health_page
             (plain GET "/health")) = "<html>health</html>"
   ∧ ∀ timestamp,
       body (handle (Part001.startup Examples.container) Examples.with_health_page
               (plain GET "/health")) ≠ JSON.stringify (health_body timestamp))
  ∧ (answering_layer (Part001.startup Examples.container) Examples.deployed
       (Examples.revalidate "/health") = Some health_layer
     ∧ status (handle (Part001.startup Examples.container) Examples.deployed
                 (Examples.revalidate "/health")) = 304
     ∧ body (handle (Part001.startup Examples.container) Examples.deployed
               (Examples.revalidate "/health")) = "").
Proof.
  assert (Hb : body (handle (Part001.startup Examples.container) Examples.with_health_page
                       (plain GET "/health")) = "<html>health</html>")
    by (vm_compute; reflexivity).
  split; [split; [|split] | split; [|split]].
  - vm_compute. reflexivity.
  - exact Hb.
  - intros timestamp. rewrite Hb. discriminate.
  - vm_compute. reflexivity.
  - vm_compute. reflexivity.
  - vm_compute. reflexivity.
Qed.




(* ===================================================================== *)
(** * The index document                                                  *)
(* ===================================================================== *)

(** An unconditional request for a file gets the file. *)
Lemma send_file_unconditional (req : request) (hs : headers) (content : string) :
  unconditional req = true →
  send_file req hs content =
  {| status := 200; res_headers := hs; body := payload req content |}.
Proof.
  intros H. unfold send_file, matches_any.
  unfold unconditional, given in H.
  destruct (header (req_headers req) "if-none-match"); [|reflexivity].
  rewrite !orb_true_r in H. discriminate.
Qed.

Lemma static_index (root : string) (w : world) (req : request) (hs : headers)
    (content : string) :
  req_method req = GET → path req = "/" →
  unconditional req = true →
  fs w !! path_join root "index.html" = Some (File content) →
  express_static root w req hs =
  End {| status := 200; res_headers := hs; body := content |}.
Proof.
  intros Hm Hp Hu Hfs. unfold express_static. rewrite Hm, Hp.
  change (contains_nul "/") with false.
  change (normalize "/") with (Some (@nil string)).
  change (Str.ends_with_slash "/") with true. cbv beta iota.
  change (resolve root ([] ++ ["index.html"])) with (path_join root "index.html").
  rewrite Hfs, (send_file_unconditional _ _ _ Hu). unfold payload. rewrite Hm.
  reflexivity.
Qed.

(** C6 (as amended).  In both scripts, a GET for [/] that carries no
    conditional header and no [Range] returns the content of
    [index.html] of the asset root with status 200, whatever else the
    asset tree holds; in particular a body ["<html>OK</html>"] is
    returned exactly. *)
Theorem index_document (p : process) (g : gateway) (o : proxy_options)
    (w : world) (req : request) (content : string) :
  In (g, o) (scripts p) →
  req_method req = GET → path req = "/" →
  unconditional req = true →
  fs w !! path_join (__dirname p) "index.html" = Some (File content) →
  status (handle g w req) = 200 ∧ body (handle g w req) = content.
Proof.
  intros Hg Hm Hp Hu Hfs. unfold handle, dispatch.
  rewrite (scripts_layers p g o Hg). unfold script_layers.
  rewrite route_cons. cbn [layer_matches layer_handle].
  change (match_mount "/" (path req)) with true. cbv iota.
  rewrite cors_passes by (rewrite Hm; discriminate).
  rewrite route_cons. cbn [layer_matches layer_handle].
  change (match_mount "/" (path req)) with true. cbv iota.
  rewrite (static_index _ w req _ content Hm Hp Hu Hfs). split; reflexivity.
Qed.

Lemma index_document_witness :
  status (handle (Part001.startup Examples.container) Examples.deployed (plain GET "/")) = 200
  ∧ body (handle (Part001.startup Examples.container) Examples.deployed (plain GET "/"))
    = "<html>OK</html>".
Proof.
  exact (index_document Examples.container _ _ Examples.deployed (plain GET "/")
           "<html>OK</html>" (or_intror (or_introl eq_refl)) eq_refl eq_refl eq_refl
           eq_refl).
Defined.

(** C6 (as stated) fails for a conditional request: with [index.html]
    in place, a GET for [/] with [If-None-Match: *] is answered 304
    without a body, by the static middleware. *)
Lemma index_not_modified :
  fs Examples.deployed !! path_join (__dirname Examples.container) "index.html"
  = Some (File "<html>OK</html>")
  ∧ answering_layer (Part001.startup Examples.container) Examples.deployed
      (Examples.revalidate "/") = Some static_layer
  ∧ status (handle (Part001.startup Examples.container) Examples.deployed
              (Examples.revalidate "/")) = 304
  ∧ body (handle (Part001.startup Examples.container) Examples.deployed
            (Examples.revalidate "/")) = "".
Proof. repeat split; vm_compute; reflexivity. Qed.

(* ===================================================================== *)
(** * The upstream target                                                 *)
(* ===================================================================== *)

(** C3.  With [BACKEND_URL] unset (or empty) the two scripts proxy to
    different targets: [server.js] to [http://backend:5000], which it
    hardcodes, the revised script to its fallback
    [http://192.168.211.149:5000]. *)
Theorem fallback_targets_differ (e : gmap string string) :
  e !! "BACKEND_URL" = None ∨ e !! "BACKEND_URL" = Some "" →
  target ServerJs.proxy = "http://backend:5000"
  ∧ target (Part001.proxy e) = "http://192.168.211.149:5000"
  ∧ target ServerJs.proxy ≠ target (Part001.proxy e).
Proof.
  intros He.
  assert (Ht : target (Part001.proxy e) = "http://192.168.211.149:5000")
    by (unfold Part001.proxy, env_or; cbn [target];
        destruct He as [-> | ->]; reflexivity).
  rewrite Ht. cbn [target ServerJs.proxy]. repeat split. discriminate.
Qed.

Lemma fallback_targets_differ_witness :
  target ServerJs.proxy = "http://backend:5000"
  ∧ target (Part001.proxy (env Examples.container)) = "http://192.168.211.149:5000"
  ∧ target ServerJs.proxy ≠ target (Part001.proxy (env Examples.container)).
Proof.
  exact (fallback_targets_differ (env Examples.container) (or_introl eq_refl)).
Defined.

(* ===================================================================== *)
(** * Which layer answers                                                 *)
(* ===================================================================== *)

Lemma layer_matches_get (route : string) (f : middleware) (req : request) :
  layer_matches (Get route f) req
  = is_get (req_method req) && match_route route (path req).
Proof. unfold layer_matches, is_get. destruct (req_method req); reflexivity. Qed.

Lemma proxy_ends (o : proxy_options) (w : world) (req : request) (hs : headers) :
  ∃ r, createProxyMiddleware o w req hs = End r.
Proof.
  unfold createProxyMiddleware.
  destruct (upstream w (target o) (outgoing o req)); [eauto|].
  destruct (onError o); eauto.
Qed.

Lemma health_route_stops (w : world) (req : request) (hs : headers) :
  (∃ r, health_route w req hs = End r) ∨ (∃ e hs', health_route w req hs = Throw e hs').
Proof. unfold health_route. destruct (JSDate.toISOString (now w)); eauto. Qed.

(** Which layer stops the dispatch past the static middleware. *)
Lemma answering_layer_routes (root : string) (o : proxy_options) (w : world)
    (req : request) (hs : headers) :
  fst (route [ Use "/api" (createProxyMiddleware o);
               Get "/" (index_route root);
               Get "/health" health_route ] w req hs 2) =
  if match_mount "/api" (path req) then Some proxy_layer
  else if is_get (req_method req) && match_route "/" (path req) then
    match fs w !! path_join root "index.html" with
    | Some Directory =>
        if is_get (req_method req) && match_route "/health" (path req)
        then Some health_layer else None
    | _ => Some index_layer
    end
  else if is_get (req_method req) && match_route "/health" (path req)
  then Some health_layer
  else None.
Proof.
  assert (Hh : ∀ hs',
    fst (route [Get "/health" health_route] w req hs' 4) =
    if is_get (req_method req) && match_route "/health" (path req)
    then Some health_layer else None).
  { intros hs'. rewrite route_cons, layer_matches_get.
    destruct (is_get (req_method req) && match_route "/health" (path req));
      [|reflexivity].
    cbn [layer_handle].
    destruct (health_route_stops w req hs') as [[r ->] | (e & hs'' & ->)]; reflexivity. }
  rewrite route_cons. cbn [layer_matches layer_handle].
  destruct (match_mount "/api" (path req)).
  { destruct (proxy_ends o w req hs) as [r ->]. reflexivity. }
  rewrite route_cons, layer_matches_get.
  destruct (is_get (req_method req) && match_route "/" (path req)); [|apply Hh].
  cbn [layer_handle]. unfold index_route, res_sendFile.
  destruct (fs w !! path_join root "index.html") as [[c|]|];
    [reflexivity | apply Hh | reflexivity].
Qed.

(** Which layer stops the dispatch, for either script. *)
Lemma answering_layer_table (root : string) (o : proxy_options) (w : world) (req : request) :
  fst (route (script_layers root o) w req ∅ 0) =
  match req_method req with
  | OPTIONS => Some cors_layer
  | _ =>
      if static_answers root w req then Some static_layer
      else fst (route [ Use "/api" (createProxyMiddleware o);
                        Get "/" (index_route root);
                        Get "/health" health_route ] w req cors_headers 2)
  end.
Proof.
  destruct (req_method req) eqn:Hm.
  7: { unfold script_layers. rewrite route_cons. cbn [layer_matches layer_handle].
       change (match_mount "/" (path req)) with true. cbv iota.
       unfold cors. rewrite Hm. reflexivity. }
  all: destruct (static_answers root w req) eqn:Hs;
    [ apply route_static_answers; [rewrite Hm; discriminate | exact Hs]
    | rewrite route_past_static by (try (rewrite Hm; discriminate); exact Hs);
      reflexivity ].
Qed.

(* ===================================================================== *)
(** * Paths of assets                                                     *)
(* ===================================================================== *)

Module PathFacts.
Import JSDateFacts.

Lemma split_no_sep (c : ascii) (s : string) :
  has_char c s = false → Str.split c s = [s].
Proof.
  induction s as [|a s IH]; [reflexivity|].
  cbn [has_char Str.split]. intros [Ha Hs]%orb_false_iff.
  rewrite Ha, (IH Hs). reflexivity.
Qed.

Lemma split_app_sep (c : ascii) (s rest : string) :
  has_char c s = false →
  Str.split c (s +:+ String c rest) = s :: Str.split c rest.
Proof.
  induction s as [|a s IH]; intros H.
  - rewrite append_nil. cbn [Str.split]. rewrite Ascii.eqb_refl. reflexivity.
  - cbn [has_char] in H. apply orb_false_iff in H as [Ha Hs].
    rewrite append_cons. cbn [Str.split]. rewrite Ha, (IH Hs). reflexivity.
Qed.

Lemma plain_segment_inv (seg : string) :
  plain_segment seg = true →
  String.eqb seg "" = false ∧ String.eqb seg "." = false ∧ String.eqb seg ".." = false
  ∧ has_char "/" seg = false ∧ contains_nul seg = false.
Proof.
  unfold plain_segment. rewrite !andb_true_iff, !negb_true_iff. tauto.
Qed.

Lemma split_join (parts : list string) :
  parts ≠ [] → forallb plain_segment parts = true →
  Str.split "/" (Str.join "/" parts) = parts.
Proof.
  induction parts as [|x l IH]; [congruence|]. intros _ H.
  cbn [forallb] in H. apply andb_true_iff in H as [Hx Hl].
  apply plain_segment_inv in Hx as (_ & _ & _ & Hx & _).
  destruct l as [|y l].
  - cbn [Str.join]. apply split_no_sep, Hx.
  - change (Str.join "/" (x :: y :: l)) with (x +:+ "/" +:+ Str.join "/" (y :: l)).
    change ("/" +:+ Str.join "/" (y :: l)) with (String "/" (Str.join "/" (y :: l))).
    rewrite split_app_sep by exact Hx. f_equal. apply IH; [discriminate | exact Hl].
Qed.

Lemma normalize_go_plain (segs acc : list string) :
  forallb plain_segment segs = true →
  normalize_go segs acc = Some (rev acc ++ segs).
Proof.
  revert acc. induction segs as [|seg segs IH]; intros acc H.
  - cbn [normalize_go]. rewrite app_nil_r. reflexivity.
  - cbn [forallb] in H. apply andb_true_iff in H as [Hseg Hsegs].
    apply plain_segment_inv in Hseg as (H1 & H2 & H3 & _ & _).
    cbn [normalize_go]. rewrite H1, H2, H3. cbn [orb].
    rewrite (IH _ Hsegs). cbn [rev]. rewrite <- app_assoc. reflexivity.
Qed.

Lemma normalize_asset_url (parts : list string) :
  parts ≠ [] → forallb plain_segment parts = true →
  normalize (asset_url parts) = Some parts.
Proof.
  intros Hne H. unfold normalize, asset_url.
  change ("/" +:+ Str.join "/" parts) with (String "/" (Str.join "/" parts)).
  cbn [Str.split]. change (Ascii.eqb "/" "/") with true. cbv iota.
  rewrite split_join by assumption.
  cbn [normalize_go]. change (String.eqb "" "") with true. cbn [orb].
  apply (normalize_go_plain parts []). exact H.
Qed.

Lemma contains_nul_app (a b : string) :
  contains_nul (a +:+ b) = contains_nul a || contains_nul b.
Proof.
  induction a as [|c a IH]; [reflexivity|].
  rewrite append_cons. cbn [contains_nul]. rewrite IH, orb_assoc. reflexivity.
Qed.

Lemma contains_nul_join (parts : list string) :
  forallb plain_segment parts = true → contains_nul (Str.join "/" parts) = false.
Proof.
  induction parts as [|x l IH]; [reflexivity|]. intros H.
  cbn [forallb] in H. apply andb_true_iff in H as [Hx Hl].
  apply plain_segment_inv in Hx as (_ & _ & _ & _ & Hx).
  destruct l as [|y l]; [exact Hx|].
  change (Str.join "/" (x :: y :: l)) with (x +:+ "/" +:+ Str.join "/" (y :: l)).
  rewrite !contains_nul_app, Hx, (IH Hl). reflexivity.
Qed.

Lemma last_char_app (a b : string) :
  b ≠ EmptyString → Str.last_char (a +:+ b) = Str.last_char b.
Proof.
  intros Hb. induction a as [|c a IH]; [reflexivity|].
  rewrite append_cons. cbn [Str.last_char]. rewrite IH.
  destruct (a +:+ b) eqn:E; [|reflexivity].
  destruct a; [rewrite append_nil in E; congruence | discriminate].
Qed.

Lemma last_char_no_sep (c : ascii) (s : string) :
  has_char c s = false → Str.last_char s ≠ Some c.
Proof.
  induction s as [|a s IH]; [discriminate|].
  cbn [has_char]. intros [Ha Hs]%orb_false_iff. cbn [Str.last_char].
  destruct s; [|exact (IH Hs)].
  intros [= ->]. rewrite Ascii.eqb_refl in Ha. discriminate.
Qed.

Lemma join_nonempty (parts : list string) :
  parts ≠ [] → forallb plain_segment parts = true → Str.join "/" parts ≠ EmptyString.
Proof.
  destruct parts as [|x l]; [congruence|]. intros _ H.
  cbn [forallb] in H. apply andb_true_iff in H as [Hx _].
  apply plain_segment_inv in Hx as (Hx & _).
  destruct x; [discriminate|]. destruct l; discriminate.
Qed.

Lemma last_char_join (parts : list string) :
  parts ≠ [] → forallb plain_segment parts = true →
  Str.last_char (Str.join "/" parts) ≠ Some "/"%char.
Proof.
  induction parts as [|x l IH]; [congruence|]. intros _ H.
  pose proof H as H'. cbn [forallb] in H. apply andb_true_iff in H as [Hx Hl].
  apply plain_segment_inv in Hx as (_ & _ & _ & Hx & _).
  destruct l as [|y l]; [exact (last_char_no_sep _ _ Hx)|].
  change (Str.join "/" (x :: y :: l)) with (x +:+ "/" +:+ Str.join "/" (y :: l)).
  rewrite last_char_app by discriminate.
  rewrite (last_char_app "/") by (apply join_nonempty; [discriminate | exact Hl]).
  apply IH; [discriminate | exact Hl].
Qed.

Lemma asset_url_no_trailing_slash (parts : list string) :
  parts ≠ [] → forallb plain_segment parts = true →
  Str.ends_with_slash (asset_url parts) = false.
Proof.
  intros Hne H. unfold Str.ends_with_slash, asset_url.
  rewrite last_char_app by (apply join_nonempty; assumption).
  pose proof (last_char_join parts Hne H) as Hl.
  destruct (Str.last_char (Str.join "/" parts)) as [c|]; [|reflexivity].
  destruct (Ascii.eqb_spec c "/"); [congruence | reflexivity].
Qed.

Lemma asset_url_no_nul (parts : list string) :
  forallb plain_segment parts = true → contains_nul (asset_url parts) = false.
Proof.
  intros H. unfold asset_url. rewrite contains_nul_app, (contains_nul_join parts H).
  reflexivity.
Qed.

End PathFacts.

(** The static middleware serves a visible file of the asset root. *)
Lemma static_serves (root : string) (w : world) (req : request) (hs : headers)
    (parts : list string) (content : string) :
  req_method req = GET → path req = asset_url parts →
  unconditional req = true →
  visible_file parts = true →
  fs w !! resolve root parts = Some (File content) →
  express_static root w req hs =
  End {| status := 200; res_headers := hs; body := content |}.
Proof.
  intros Hm Hp Hu Hv Hfs. unfold visible_file in Hv.
  assert (Hne : parts ≠ []) by (destruct parts; [discriminate | discriminate]).
  destruct parts as [|x l] eqn:E; [discriminate|]. rewrite <- E in *. clear E x l.
  apply andb_true_iff in Hv as [Hplain Hdot]. apply negb_true_iff in Hdot.
  unfold express_static. rewrite Hm, Hp.
  rewrite PathFacts.asset_url_no_nul by exact Hplain.
  rewrite PathFacts.normalize_asset_url by assumption.
  rewrite PathFacts.asset_url_no_trailing_slash by assumption.
  rewrite Hdot, Hfs, (send_file_unconditional _ _ _ Hu). unfold payload. rewrite Hm.
  reflexivity.
Qed.

(** The static middleware passes a request for a dotfile on. *)
Lemma static_ignores_dotfile (root : string) (w : world) (req : request)
    (parts : list string) :
  path req = asset_url parts →
  forallb plain_segment parts = true → dotfile parts = true →
  static_answers root w req = false.
Proof.
  intros Hp Hplain Hdot.
  assert (Hne : parts ≠ []) by (destruct parts; [discriminate | discriminate]).
  unfold static_answers, express_static. rewrite Hp.
  rewrite PathFacts.asset_url_no_nul by exact Hplain.
  rewrite PathFacts.normalize_asset_url by assumption.
  rewrite PathFacts.asset_url_no_trailing_slash by assumption.
  rewrite Hdot. destruct (req_method req); reflexivity.
Qed.

Lemma ascii_lower_is_slash (c : ascii) :
  Ascii.eqb (Str.ascii_lower c) "/" = Ascii.eqb c "/".
Proof. destruct c as [[] [] [] [] [] [] [] []]; reflexivity. Qed.

Lemma split_to_lower (s : string) :
  Str.split "/" (Str.to_lower s) = map Str.to_lower (Str.split "/" s).
Proof.
  induction s as [|a s IH]; [reflexivity|].
  cbn [Str.to_lower Str.split]. rewrite ascii_lower_is_slash, IH.
  destruct (Ascii.eqb a "/"); [reflexivity|].
  destruct (Str.split "/" s); reflexivity.
Qed.

Lemma split_asset_url (parts : list string) :
  parts ≠ [] → forallb plain_segment parts = true →
  Str.split "/" (Str.to_lower (asset_url parts)) = "" :: map Str.to_lower parts.
Proof.
  intros Hne H. rewrite split_to_lower. unfold asset_url.
  change ("/" +:+ Str.join "/" parts) with (String "/" (Str.join "/" parts)).
  cbn [Str.split]. change (Ascii.eqb "/" "/") with true. cbv iota.
  rewrite PathFacts.split_join by assumption. reflexivity.
Qed.

(** The URL of a dotfile is the path of neither route. *)
Lemma dotfile_no_route (parts : list string) :
  forallb plain_segment parts = true → dotfile parts = true →
  match_route "/" (asset_url parts) = false
  ∧ match_route "/health" (asset_url parts) = false.
Proof.
  intros Hplain Hdot.
  assert (Hne : parts ≠ []) by (destruct parts; [discriminate | discriminate]).
  pose proof (split_asset_url parts Hne Hplain) as Hsplit.
  assert (Hl : ∀ x, In x parts → Str.to_lower x ≠ "").
  { intros x Hx E. rewrite forallb_forall in Hplain.
    apply Hplain, PathFacts.plain_segment_inv in Hx as (Hx & _).
    destruct x; discriminate. }
  assert (Hh : map Str.to_lower parts ≠ ["health"]).
  { intros E. destruct parts as [|x [|y l]]; try discriminate.
    injection E as E. unfold dotfile in Hdot. cbn in Hdot.
    destruct x as [|c x]; [discriminate|].
    destruct (Ascii.eqb_spec c "."); [subst c; discriminate | ].
    destruct c as [[] [] [] [] [] [] [] []]; try discriminate; congruence. }
  unfold match_route.
  change (Str.to_lower "/") with "/". change (Str.to_lower "/health") with "/health".
  change (Str.ends_with_slash "/") with true.
  change (Str.ends_with_slash "/health") with false. cbv iota.
  split; apply orb_false_iff; split; apply String.eqb_neq; intros E.
  - rewrite E in Hsplit. destruct parts as [|x [|y l]]; try discriminate.
    injection Hsplit as Hx. symmetry in Hx. exact (Hl x (or_introl eq_refl) Hx).
  - unfold asset_url in E.
    change (Str.to_lower ("/" +:+ Str.join "/" parts))
      with (String "/" (Str.to_lower (Str.join "/" parts))) in E.
    rewrite JSDateFacts.append_cons in E. injection E as E.
    destruct (Str.to_lower (Str.join "/" parts)); discriminate.
  - rewrite E in Hsplit. apply Hh. injection Hsplit as <-. reflexivity.
  - rewrite E in Hsplit. destruct parts as [|x [|y [|z l]]]; try discriminate.
    injection Hsplit as _ Hy. symmetry in Hy.
    exact (Hl y (or_intror (or_introl eq_refl)) Hy).
Qed.

(* ===================================================================== *)
(** * The files next to the script                                        *)
(* ===================================================================== *)




(* ===================================================================== *)
(** * The proxy                                                           *)
(* ===================================================================== *)

Lemma starts_with_drop (prefix s : string) :
  Str.starts_with prefix s = true →
  prefix +:+ Str.drop (String.length prefix) s = s.
Proof.
  revert s. induction prefix as [|a prefix IH]; intros s H; [reflexivity|].
  destruct s as [|b s]; [discriminate|]. cbn [Str.starts_with] in H.
  destruct (Ascii.eqb_spec a b) as [->|]; [|discriminate].
  rewrite JSDateFacts.append_cons. cbn [String.length Str.drop]. rewrite (IH s H).
  reflexivity.
Qed.

(** [pathRewrite: { '^/api': '/api' }] changes no URL. *)
Lemma rewritePath_api (url : string) : rewritePath [("/api", "/api")] url = url.
Proof.
  cbn [rewritePath]. destruct (Str.starts_with "/api" url) eqn:H; [|reflexivity].
  apply starts_with_drop, H.
Qed.

Lemma scripts_options (p : process) (g : gateway) (o : proxy_options) :
  In (g, o) (scripts p) →
  changeOrigin o = true ∧ pathRewrite o = [("/api", "/api")].
Proof.
  unfold scripts. cbn [In].
  intros [[= <- <-] | [[= <- <-] | []]]; split; reflexivity.
Qed.

Module UrlFacts.
Import JSDateFacts.

Lemma all_chars_has_char (f : ascii → bool) (c : ascii) (s : string) :
  f c = false → all_chars f s = true → has_char c s = false.
Proof.
  intros Hc. induction s as [|a s IH]; [reflexivity|].
  cbn [all_chars has_char]. intros [Ha Hs]%andb_true_iff.
  rewrite (IH Hs), orb_false_r.
  destruct (Ascii.eqb_spec a c); [congruence | reflexivity].
Qed.

Lemma all_chars_app (f : ascii → bool) (a b : string) :
  all_chars f (a +:+ b) = all_chars f a && all_chars f b.
Proof.
  induction a as [|c a IH]; [reflexivity|].
  rewrite append_cons. cbn [all_chars]. rewrite IH, andb_assoc. reflexivity.
Qed.

Lemma all_chars_impl (f g : ascii → bool) (s : string) :
  (∀ c, f c = true → g c = true) → all_chars f s = true → all_chars g s = true.
Proof.
  intros Hfg. induction s as [|c s IH]; [reflexivity|].
  cbn [all_chars]. intros [Hc Hs]%andb_true_iff. rewrite (Hfg c Hc), (IH Hs). reflexivity.
Qed.

(** [Str.break] cuts the string in two, the second part empty or
    starting at the separator. *)
Lemma break_spec (c : ascii) (s : string) :
  s = fst (Str.break c s) +:+ snd (Str.break c s)
  ∧ (snd (Str.break c s) = "" ∨ ∃ r, snd (Str.break c s) = String c r).
Proof.
  induction s as [|a s [IH1 IH2]]; [split; [reflexivity | left; reflexivity]|].
  cbn [Str.break]. destruct (Ascii.eqb_spec a c) as [->|].
  - split; [reflexivity | right; eauto].
  - destruct (Str.break c s) as [l r]. cbn [fst snd] in *.
    rewrite append_cons, <- IH1. split; [reflexivity | exact IH2].
Qed.

Lemma break_app (c : ascii) (p q : string) :
  has_char c p = false → (q = "" ∨ Str.starts_with (String c "") q = true) →
  Str.break c (p +:+ q) = (p, q).
Proof.
  intros Hp Hq. induction p as [|a p IH].
  - rewrite append_nil. destruct q as [|b q]; [reflexivity|].
    destruct Hq as [Hq|Hq]; [discriminate|].
    cbn [Str.starts_with] in Hq. cbn [Str.break].
    destruct (Ascii.eqb_spec c b) as [->|]; [|discriminate].
    rewrite Ascii.eqb_refl. reflexivity.
  - cbn [has_char] in Hp. apply orb_false_iff in Hp as [Ha Hp].
    rewrite append_cons. cbn [Str.break]. rewrite Ha, (IH Hp). reflexivity.
Qed.

Lemma collapse_slashes_single (s : string) :
  has_double_slash s = false → collapse_slashes s = s.
Proof.
  induction s as [|c s IH]; [reflexivity|].
  cbn [has_double_slash collapse_slashes]. intros [Hc Hs]%orb_false_iff.
  rewrite Hc, (IH Hs). reflexivity.
Qed.

Lemma replace_first_absent (pattern value s : string) (c : ascii) :
  has_char c pattern = true → has_char c s = false →
  replace_first pattern value s = s.
Proof.
  intros Hpat. assert (Hno : ∀ t, has_char c t = false → Str.starts_with pattern t = false).
  { clear s. induction pattern as [|a pattern IH]; [discriminate|].
    intros t Ht. destruct t as [|b t]; [reflexivity|].
    cbn [has_char] in Hpat, Ht. apply orb_false_iff in Ht as [Hb Ht].
    cbn [Str.starts_with]. destruct (Ascii.eqb_spec a b) as [->|]; [|reflexivity].
    rewrite Hb in Hpat. cbn [orb] in Hpat. exact (IH Hpat t Ht). }
  induction s as [|a s IH]; intros Hs.
  - cbn [replace_first]. rewrite (Hno "" Hs). reflexivity.
  - cbn [replace_first]. rewrite (Hno _ Hs).
    cbn [has_char] in Hs. apply orb_false_iff in Hs as [_ Hs]. rewrite (IH Hs). reflexivity.
Qed.

(** [urlJoin] of the path ["/"] and a URL of plain characters is that
    URL. *)
Lemma urlJoin_plain (p q : string) :
  Str.starts_with "/" p = true →
  all_chars path_char p = true → has_double_slash p = false →
  (q = "" ∨ Str.starts_with "?" q = true) →
  urlJoin "/" (p +:+ q) = p +:+ q.
Proof.
  intros Hslash Hchars Hdouble Hq. unfold urlJoin.
  rewrite (break_app "?" p q (all_chars_has_char path_char "?" p eq_refl Hchars) Hq).
  destruct p as [|c p]; [discriminate|].
  cbn [Str.starts_with] in Hslash.
  destruct (Ascii.eqb_spec "/" c) as [<-|]; [|discriminate].
  cbn [List.filter String.eqb negb Str.join].
  change ("/" +:+ "/" +:+ String "/" p) with (String "/" (String "/" (String "/" p))).
  assert (Hc : collapse_slashes (String "/" (String "/" (String "/" p))) = String "/" p).
  { change (collapse_slashes (String "/" (String "/" (String "/" p))))
      with (collapse_slashes (String "/" p)).
    apply collapse_slashes_single, Hdouble. }
  rewrite Hc.
  assert (Hcolon : has_char ":" (String "/" p) = false)
    by exact (all_chars_has_char path_char ":" _ eq_refl Hchars).
  rewrite (replace_first_absent "http:/" _ _ ":" eq_refl Hcolon).
  rewrite (replace_first_absent "https:/" _ _ ":" eq_refl Hcolon).
  reflexivity.
Qed.

Definition host_char (c : ascii) : bool :=
  name_char c || is_digit c || Ascii.eqb c ":".

Lemma host_char_plain (c : ascii) :
  host_char c = true →
  Ascii.eqb c "/" || Ascii.eqb c "?" || Ascii.eqb c "#" = false
  ∧ Str.ascii_lower c = c.
Proof. destruct c as [[] [] [] [] [] [] [] []]; vm_compute; intros H; split; congruence. Qed.

Lemma host_chars_plain (s : string) :
  all_chars host_char s = true → break_host s = (s, "") ∧ Str.to_lower s = s.
Proof.
  induction s as [|c s IH]; [split; reflexivity|].
  cbn [all_chars]. intros [Hc Hs]%andb_true_iff.
  destruct (host_char_plain c Hc) as [H1 H2], (IH Hs) as [H3 H4].
  cbn [break_host Str.to_lower]. rewrite H1, H2, H3, H4. split; reflexivity.
Qed.

(** The authority of an origin target is its host and port. *)
Lemma origin_target_chars (url : string) :
  origin_target url = true → all_chars host_char (after_scheme url) = true.
Proof.
  unfold origin_target. intros [_ H]%andb_true_iff.
  destruct (break_spec ":" (after_scheme url)) as [Happ Hport].
  destruct (Str.break ":" (after_scheme url)) as [name port]. cbn [fst snd] in *.
  apply andb_true_iff in H as [H Hp]. apply andb_true_iff in H as [H _].
  apply andb_true_iff in H as [_ Hn].
  rewrite Happ, all_chars_app.
  rewrite (all_chars_impl name_char host_char name)
    by (exact Hn || (intros c Hc; unfold host_char; rewrite Hc; reflexivity)).
  destruct Hport as [-> | [r ->]]; [reflexivity|].
  cbn [Str.drop String.eqb] in Hp. cbn [orb] in Hp.
  apply andb_true_iff in Hp as [_ Hr]. cbn [all_chars andb].
  change (host_char ":") with true. cbn [andb].
  apply (all_chars_impl is_digit); [|exact Hr].
  intros c Hc. unfold host_char. rewrite Hc, orb_true_r. reflexivity.
Qed.

Lemma origin_target_host (url : string) :
  origin_target url = true →
  target_host url = after_scheme url ∧ target_path url = "/".
Proof.
  intros H. apply origin_target_chars, host_chars_plain in H as [Hb Hl].
  unfold target_host, target_path. rewrite Hb. cbn [fst snd]. rewrite Hl.
  split; reflexivity.
Qed.

End UrlFacts.

Lemma deleteLength_other (req : request) (h : string) :
  h ≠ "content-length" → h ≠ "transfer-encoding" →
  deleteLength req !! h = req_headers req !! h.
Proof.
  intros H1 H2. unfold deleteLength.
  destruct (length_deleted req); [|reflexivity].
  rewrite lookup_delete_ne, lookup_insert_ne by congruence. reflexivity.
Qed.

Lemma outgoing_headers (o : proxy_options) (req : request) :
  changeOrigin o = true →
  (∀ h, h ≠ "host" → h ≠ "connection" →
        preq_headers (outgoing o req) !! h = deleteLength req !! h)
  ∧ preq_headers (outgoing o req) !! "host" = Some (target_host (target o))
  ∧ preq_headers (outgoing o req) !! "connection"
    = Some match req_headers req !! "connection" with
           | Some c => if is_upgrade c then c else "close"
           | None => "close"
           end.
Proof.
  intros Hco. unfold outgoing. rewrite Hco. cbn [preq_headers].
  rewrite <- (deleteLength_other req "connection") by discriminate.
  split; [|split].
  - intros h Hhost Hconn. rewrite lookup_insert_ne by congruence.
    destruct (deleteLength req !! "connection") as [c|];
      [destruct (is_upgrade c)|]; rewrite ?lookup_insert_ne by congruence; reflexivity.
  - apply lookup_insert_eq.
  - rewrite lookup_insert_ne by discriminate.
    destruct (deleteLength req !! "connection") as [c|] eqn:E;
      [destruct (is_upgrade c)|]; rewrite ?lookup_insert_eq; [exact E | reflexivity ..].
Qed.

Lemma route_proxy (root : string) (o : proxy_options) (w : world) (req : request) :
  req_method req ≠ OPTIONS →
  static_answers root w req = false →
  match_mount "/api" (path req) = true →
  ∃ r, createProxyMiddleware o w req cors_headers = End r
       ∧ route (script_layers root o) w req ∅ 0 = (Some proxy_layer, r).
Proof.
  intros Hm Hs Hmount. rewrite route_past_static by assumption.
  rewrite route_cons. cbn [layer_matches layer_handle]. rewrite Hmount.
  unfold createProxyMiddleware.
  destruct (upstream w (target o) (outgoing o req)); [eauto|].
  destruct (onError o); eauto.
Qed.

Lemma match_mount_slash (pth : string) :
  match_mount "/api" pth = true → Str.starts_with "/" pth = true.
Proof.
  unfold match_mount. change (String.eqb "/api" "/") with false. cbv iota.
  change (Str.to_lower "/api") with "/api".
  intros [H _]%andb_true_iff. destruct pth as [|c pth]; [discriminate|].
  cbn [Str.to_lower Str.starts_with] in H. cbn [Str.starts_with].
  rewrite Ascii.eqb_sym, ascii_lower_is_slash, Ascii.eqb_sym in H.
  destruct (Ascii.eqb "/" c); [reflexivity | discriminate].
Qed.




(* ===================================================================== *)
(** * The CORS header                                                     *)
(* ===================================================================== *)

Lemma html_headers_allow (hs : headers) :
  allows_any_origin hs → allows_any_origin (html_headers hs).
Proof.
  unfold allows_any_origin, html_headers. intros H.
  rewrite !lookup_insert_ne by discriminate. exact H.
Qed.

Lemma finalhandler_allows (err : option http_error) (req : request) (hs : headers) :
  allows_any_origin hs → allows_any_origin (res_headers (finalhandler err req hs)).
Proof. intros H. destruct err; apply html_headers_allow, H. Qed.

Lemma route_keeps_header (stack : list layer) (w : world) (req : request) :
  Forall (fun l => keeps_header (layer_handle l) w req) stack →
  ∀ hs i, allows_any_origin hs →
    allows_any_origin (res_headers (snd (route stack w req hs i))).
Proof.
  induction 1 as [|l stack Hl _ IH]; intros hs i Hhs.
  - apply finalhandler_allows, Hhs.
  - rewrite route_cons. destruct (layer_matches l req); [|apply IH, Hhs].
    specialize (Hl hs Hhs). destruct (layer_handle l w req hs) as [hs'|e hs'|r].
    + apply IH, Hl.
    + apply finalhandler_allows, Hl.
    + exact Hl.
Qed.

Lemma send_file_allows (req : request) (hs : headers) (content : string) :
  allows_any_origin hs → allows_any_origin (res_headers (send_file req hs content)).
Proof.
  intros H. unfold send_file.
  destruct (matches_any (req_headers req)); [|exact H].
  cbn [res_headers]. unfold allows_any_origin, removeContentHeaderFields.
  apply map_lookup_filter_Some. split; [exact H | left; reflexivity].
Qed.

Lemma express_static_keeps (root : string) (w : world) (req : request) :
  keeps_header (express_static root) w req.
Proof.
  intros hs Hhs. unfold express_static.
  destruct (req_method req); try exact Hhs;
    (destruct (contains_nul (path req)); [exact Hhs|];
     destruct (normalize (path req)) as [parts|]; [|exact Hhs];
     destruct (Str.ends_with_slash (path req));
     [destruct (fs w !! resolve root (parts ++ ["index.html"])) as [[c|]|];
      [apply send_file_allows, Hhs | exact Hhs ..]
     |destruct (dotfile parts); [exact Hhs|];
      destruct (fs w !! resolve root parts) as [[c|]|];
      [apply send_file_allows, Hhs | | exact Hhs];
      cbn [res_headers]; unfold allows_any_origin;
      rewrite !lookup_insert_ne by discriminate; exact Hhs]).
Qed.

Lemma res_json_allows (code : Z) (obj : JSON.json) (req : request) (hs : headers) :
  allows_any_origin hs → allows_any_origin (res_headers (res_json code obj req hs)).
Proof.
  intros H. unfold res_json, allows_any_origin.
  destruct (req_fresh req code _); cbn [res_headers].
  - rewrite !lookup_delete_ne by discriminate. exact H.
  - rewrite lookup_insert_ne by discriminate. exact H.
Qed.

Lemma index_route_keeps (root : string) (w : world) (req : request) :
  keeps_header (index_route root) w req.
Proof.
  intros hs Hhs. unfold index_route, res_sendFile.
  destruct (fs w !! path_join root "index.html") as [[c|]|];
    [apply send_file_allows, Hhs | exact Hhs ..].
Qed.

Lemma health_route_keeps (w : world) (req : request) :
  keeps_header health_route w req.
Proof.
  intros hs Hhs. unfold health_route.
  destruct (JSDate.toISOString (now w)); [apply res_json_allows|]; exact Hhs.
Qed.

(** The proxy keeps the header when the upstream's reply does not
    carry one of its own with another value. *)
Lemma proxy_keeps (p : process) (g : gateway) (o : proxy_options) (w : world)
    (req : request) :
  In (g, o) (scripts p) →
  (∀ r v, upstream w (target o) (outgoing o req) = Replied r →
          res_headers r !! "access-control-allow-origin" = Some v → v = "*") →
  keeps_header (createProxyMiddleware o) w req.
Proof.
  intros Hg Hup hs Hhs. unfold createProxyMiddleware.
  destruct (upstream w (target o) (outgoing o req)) as [r|e] eqn:E.
  - cbn [res_headers]. unfold allows_any_origin.
    destruct (res_headers r !! "access-control-allow-origin") as [v|] eqn:Hv.
    + rewrite (lookup_union_Some_l _ _ _ _ Hv). f_equal. eauto.
    + rewrite lookup_union_r by exact Hv. exact Hhs.
  - unfold scripts in Hg. cbn [In] in Hg.
    destruct Hg as [[= <- <-] | [[= <- <-] | []]]; cbn [onError ServerJs.proxy Part001.proxy].
    + exact Hhs.
    + apply res_json_allows, Hhs.
Qed.

Lemma cors_sets (w : world) (req : request) (hs : headers) :
  match cors w req hs with
  | Next hs' => allows_any_origin hs'
  | Throw _ hs' => allows_any_origin hs'
  | End r => allows_any_origin (res_headers r)
  end.
Proof.
  unfold cors, allows_any_origin.
  destruct (req_method req); try apply lookup_insert_eq.
  cbn [res_headers].
  destruct (req_headers req !! "access-control-request-headers") as [h|];
    [destruct (String.eqb h "")|];
    rewrite !lookup_insert_ne by discriminate; apply lookup_insert_eq.
Qed.




(* ===================================================================== *)
(** * Upstream failures                                                   *)
(* ===================================================================== *)

(** The revised script answers an upstream failure with its own error
    callback: status 500 and the JSON object [{"error": ...}]. *)
Lemma part001_upstream_failure (p : process) (w : world) (req : request)
    (e : transport_error) :
  req_method req ≠ OPTIONS →
  match_mount "/api" (path req) = true →
  static_answers (__dirname p) w req = false →
  upstream w (target (Part001.proxy (env p))) (outgoing (Part001.proxy (env p)) req)
  = Failed e →
  handle (Part001.startup p) w req =
  res_json 500 (JSON.JObject [("error", JSON.JString Part001.error_message)])
    req cors_headers.
Proof.
  intros Hm Hmount Hs Hup.
  destruct (route_proxy (__dirname p) (Part001.proxy (env p)) w req Hm Hs Hmount)
    as (r & Hr & Hroute).
  unfold handle, dispatch. change (app (Part001.startup p))
    with (script_layers (__dirname p) (Part001.proxy (env p))).
  rewrite Hroute. cbn [snd].
  unfold createProxyMiddleware in Hr. rewrite Hup in Hr.
  cbn [onError Part001.proxy] in Hr. injection Hr as <-. reflexivity.
Qed.

(** [server.js] gives the proxy no [onError]: an upstream failure is
    answered by the library's own handler. *)
Lemma server_js_upstream_failure (p : process) (w : world) (req : request)
    (e : transport_error) :
  req_method req ≠ OPTIONS →
  match_mount "/api" (path req) = true →
  static_answers (__dirname p) w req = false →
  upstream w (target ServerJs.proxy) (outgoing ServerJs.proxy req) = Failed e →
  handle (ServerJs.startup p) w req = defaultErrorHandler e req cors_headers.
Proof.
  intros Hm Hmount Hs Hup.
  destruct (route_proxy (__dirname p) ServerJs.proxy w req Hm Hs Hmount)
    as (r & Hr & Hroute).
  unfold handle, dispatch. change (app (ServerJs.startup p))
    with (script_layers (__dirname p) ServerJs.proxy).
  rewrite Hroute. cbn [snd].
  unfold createProxyMiddleware in Hr. rewrite Hup in Hr.
  cbn [onError ServerJs.proxy] in Hr. injection Hr as <-. reflexivity.
Qed.

(** C2.  The failing input of [server.js]: the upstream refuses the
    connection to a GET for [/api/status].  [server.js] gives the proxy
    no [onError], so the library's handler answers 504 with a plain-text
    body and no JSON content type; the revised script answers 500 with
    the JSON object [{"error": ...}], as the claim says. *)
Theorem server_js_upstream_refused :
  upstream Examples.deployed (target ServerJs.proxy)
    (outgoing ServerJs.proxy Examples.api_status) = Failed ECONNREFUSED
  ∧ handle (ServerJs.startup Examples.container) Examples.deployed Examples.api_status
    = {| status := 504;
         res_headers := cors_headers;
         body := "Error occurred while trying to proxy: localhost:3000/api/status" |}
  ∧ handle (Part001.startup Examples.container) Examples.deployed Examples.api_status
    = {| status := 500;
         res_headers := <["content-type" := "application/json; charset=utf-8"]> cors_headers;
         body := JSON.stringify (JSON.JObject [("error", JSON.JString "后端服务连接失败")]) |}.
Proof. repeat split; vm_compute; reflexivity. Qed.

(* ===================================================================== *)
(** * Requests that no layer answers                                      *)
(* ===================================================================== *)

(** X1.  Neither script registers a catch-all route: a request that is
    not an OPTIONS request, that the static middleware passes on, whose
    path is not under [/api] and that is not a GET or HEAD for [/] or
    [/health], runs through every layer and gets the 404 page of the
    final handler, with the CORS header set. *)
Theorem unmatched_request_not_found (p : process) (g : gateway) (o : proxy_options)
    (w : world) (req : request) :
  In (g, o) (scripts p) →
  req_method req ≠ OPTIONS →
  static_answers (__dirname p) w req = false →
  match_mount "/api" (path req) = false →
  is_get (req_method req)
  && (match_route "/" (path req) || match_route "/health" (path req)) = false →
  answering_layer g w req = None
  ∧ status (handle g w req) = 404
  ∧ handle g w req = finalhandler None req cors_headers.
Proof.
  intros Hg Hm Hs Hmount Hroutes. unfold answering_layer, handle, dispatch.
  rewrite (scripts_layers p g o Hg).
  rewrite route_past_static by assumption.
  rewrite !route_cons, !layer_matches_get. cbn [layer_matches]. rewrite Hmount.
  destruct (is_get (req_method req)); cbn [andb] in *.
  - apply orb_false_iff in Hroutes as [-> ->]. repeat split.
  - repeat split.
Qed.

Lemma unmatched_request_not_found_witness :
  answering_layer (Part001.startup Examples.container) Examples.deployed
    (plain GET "/does-not-exist.xyz") = None
  ∧ status (handle (Part001.startup Examples.container) Examples.deployed
              (plain GET "/does-not-exist.xyz")) = 404
  ∧ handle (Part001.startup Examples.container) Examples.deployed
      (plain GET "/does-not-exist.xyz")
    = finalhandler None (plain GET "/does-not-exist.xyz") cors_headers.
Proof.
  exact (unmatched_request_not_found Examples.container _ _ Examples.deployed
           (plain GET "/does-not-exist.xyz") (or_intror (or_introl eq_refl))
           ltac:(discriminate) eq_refl eq_refl eq_refl).
Defined.

(* ===================================================================== *)
(** * Preflight requests                                                  *)
(* ===================================================================== *)

(** X2.  [cors()] is the first layer of both scripts and ends every
    OPTIONS request itself: status 204, no body, any origin and the
    default methods allowed, the requested headers echoed.  Such a request
    never reaches the static middleware, the proxy or a route: the
    response is the same whatever the files, the upstream and the clock. *)
Theorem preflight_answered_by_cors (p : process) (g : gateway) (o : proxy_options)
    (w : world) (req : request) :
  In (g, o) (scripts p) →
  req_method req = OPTIONS →
  answering_layer g w req = Some cors_layer
  ∧ status (handle g w req) = 204
  ∧ body (handle g w req) = ""
  ∧ res_headers (handle g w req) !! "access-control-allow-origin" = Some "*"
  ∧ res_headers (handle g w req) !! "access-control-allow-methods"
    = Some "GET,HEAD,PUT,PATCH,POST,DELETE"
  ∧ (∀ h, req_headers req !! "access-control-request-headers" = Some h → h ≠ "" →
          res_headers (handle g w req) !! "access-control-allow-headers" = Some h)
  ∧ (∀ w', handle g w' req = handle g w req).
Proof.
  intros Hg Hm. unfold answering_layer, handle, dispatch.
  rewrite (scripts_layers p g o Hg). unfold script_layers.
  assert (Hr : ∀ w0, route (script_layers (__dirname p) o) w0 req ∅ 0
               = (Some cors_layer,
                  {| status := 204;
                     res_headers :=
                       <["content-length" := "0"]>
                         (match req_headers req !! "access-control-request-headers" with
                          | Some h =>
                              if String.eqb h "" then
                                <["vary" := "Access-Control-Request-Headers"]>
                                  (<["access-control-allow-methods" :=
                                       "GET,HEAD,PUT,PATCH,POST,DELETE"]> cors_headers)
                              else
                                <["access-control-allow-headers" := h]>
                                  (<["vary" := "Access-Control-Request-Headers"]>
                                     (<["access-control-allow-methods" :=
                                          "GET,HEAD,PUT,PATCH,POST,DELETE"]> cors_headers))
                          | None =>
                              <["vary" := "Access-Control-Request-Headers"]>
                                (<["access-control-allow-methods" :=
                                     "GET,HEAD,PUT,PATCH,POST,DELETE"]> cors_headers)
                          end);
                     body := "" |})).
  { intros w0. unfold script_layers. rewrite route_cons.
    cbn [layer_matches layer_handle].
    change (match_mount "/" (path req)) with true. cbv iota.
    unfold cors. rewrite Hm. reflexivity. }
  fold (script_layers (__dirname p) o). rewrite Hr. cbn [fst snd status body res_headers].
  split; [reflexivity|]. split; [reflexivity|]. split; [reflexivity|].
  split; [|split; [|split]].
  - destruct (req_headers req !! "access-control-request-headers") as [h|];
      [destruct (String.eqb h "")|];
      rewrite !lookup_insert_ne by discriminate; apply lookup_insert_eq.
  - destruct (req_headers req !! "access-control-request-headers") as [h|];
      [destruct (String.eqb h "")|];
      rewrite !lookup_insert_ne by discriminate; apply lookup_insert_eq.
  - intros h Hh Hne. rewrite Hh.
    destruct (String.eqb_spec h ""); [congruence|].
    rewrite lookup_insert_ne by discriminate. apply lookup_insert_eq.
  - intros w'. rewrite Hr. reflexivity.
Qed.

Lemma preflight_answered_by_cors_witness :
  answering_layer (ServerJs.startup Examples.container) Examples.deployed
    Scenarios.preflight = Some cors_layer
  ∧ status (handle (ServerJs.startup Examples.container) Examples.deployed
              Scenarios.preflight) = 204.
Proof.
  pose proof (preflight_answered_by_cors Examples.container _ _ Examples.deployed
                Scenarios.preflight (or_introl eq_refl) eq_refl) as H.
  exact (conj (proj1 H) (proj1 (proj2 H))).
Defined.

(* ===================================================================== *)
(** * Requests that write                                                 *)
(* ===================================================================== *)

(** X3.  A request that is neither GET, HEAD nor OPTIONS (POST, PUT,
    PATCH, DELETE) never reads a file and never reaches the index route
    or the probe: under [/api] it is handed to the proxy, anywhere else it
    gets the 404 of the final handler, whatever the asset directory
    holds. *)
Theorem write_request_proxied_or_rejected (p : process) (g : gateway)
    (o : proxy_options) (w : world) (req : request) :
  In (g, o) (scripts p) →
  is_get (req_method req) = false → req_method req ≠ OPTIONS →
  (match_mount "/api" (path req) = true → answering_layer g w req = Some proxy_layer)
  ∧ (match_mount "/api" (path req) = false →
     answering_layer g w req = None ∧ status (handle g w req) = 404).
Proof.
  intros Hg Hget Hm.
  assert (Hs : static_answers (__dirname p) w req = false)
    by (unfold static_answers, express_static;
        destruct (req_method req); try discriminate; reflexivity).
  unfold answering_layer, handle, dispatch. rewrite (scripts_layers p g o Hg).
  rewrite route_past_static by assumption. split; intros Hmount.
  - rewrite answering_layer_routes, Hmount. reflexivity.
  - rewrite !route_cons, !layer_matches_get. cbn [layer_matches].
    rewrite Hmount, Hget. cbn [andb]. split; reflexivity.
Qed.

Lemma write_request_proxied_or_rejected_witness :
  answering_layer (Part001.startup Examples.container) Examples.deployed
    (plain DELETE "/api/servers") = Some proxy_layer
  ∧ answering_layer (Part001.startup Examples.container) Examples.deployed
      (plain DELETE "/server.js") = None
  ∧ status (handle (Part001.startup Examples.container) Examples.deployed
              (plain DELETE "/server.js")) = 404.
Proof.
  split.
  - exact (proj1 (write_request_proxied_or_rejected Examples.container _ _
                    Examples.deployed (plain DELETE "/api/servers")
                    (or_intror (or_introl eq_refl)) eq_refl ltac:(discriminate))
             eq_refl).
  - exact (proj2 (write_request_proxied_or_rejected Examples.container _ _
                    Examples.deployed (plain DELETE "/server.js")
                    (or_intror (or_introl eq_refl)) eq_refl ltac:(discriminate))
             eq_refl).
Defined.

(* ===================================================================== *)
(** * The explicit index route                                            *)
(* ===================================================================== *)

Lemma ascii_lower_slash (c : ascii) : Str.ascii_lower c = "/"%char → c = "/"%char.
Proof.
  destruct c as [[] [] [] [] [] [] [] []]; vm_compute; intros H;
    first [reflexivity | discriminate H].
Qed.

Lemma match_route_root (pth : string) :
  Str.starts_with "/" pth = true → match_route "/" pth = true → pth = "/".
Proof.
  destruct pth as [|c pth]; [discriminate|]. intros _.
  unfold match_route. change (Str.to_lower "/") with "/".
  change (Str.ends_with_slash "/") with true. cbv iota.
  cbn [Str.to_lower]. intros [H|H]%orb_true_iff.
  - apply String.eqb_eq in H. injection H as Hc Hp.
    destruct pth; [|discriminate]. rewrite (ascii_lower_slash c Hc). reflexivity.
  - apply String.eqb_eq in H. rewrite JSDateFacts.append_cons in H.
    injection H as _ Hp. destruct (Str.to_lower pth); discriminate.
Qed.

Lemma answering_layer_past_cors (root : string) (o : proxy_options) (w : world)
    (req : request) :
  req_method req ≠ OPTIONS →
  fst (route (script_layers root o) w req ∅ 0) =
  if static_answers root w req then Some static_layer
  else if match_mount "/api" (path req) then Some proxy_layer
  else if is_get (req_method req) && match_route "/" (path req) then
    match fs w !! path_join root "index.html" with
    | Some Directory =>
        if is_get (req_method req) && match_route "/health" (path req)
        then Some health_layer else None
    | _ => Some index_layer
    end
  else if is_get (req_method req) && match_route "/health" (path req)
  then Some health_layer
  else None.
Proof.
  intros Hm. rewrite answering_layer_table, answering_layer_routes.
  destruct (req_method req); try reflexivity. congruence.
Qed.

(** The static middleware passes a GET or HEAD for [/] on only when
    [index.html] is not a file of the asset root. *)
Lemma static_passes_root (root : string) (w : world) (req : request) (c : string) :
  is_get (req_method req) = true → path req = "/" →
  static_answers root w req = false →
  fs w !! path_join root "index.html" ≠ Some (File c).
Proof.
  intros Hget Hp Hs Hc. unfold static_answers, express_static in Hs.
  rewrite Hp in Hs.
  change (contains_nul "/") with false in Hs.
  change (normalize "/") with (Some (@nil string)) in Hs.
  change (Str.ends_with_slash "/") with true in Hs. cbv beta iota in Hs.
  change (resolve root ([] ++ ["index.html"])) with (path_join root "index.html") in Hs.
  rewrite Hc in Hs. destruct (req_method req); discriminate.
Qed.

(** X4.  The handler of [app.get('/')] never delivers the index
    document: the static middleware is registered before it and looks up
    the same file, so whenever [index.html] exists the request has already
    been answered.  The route is the one that answers only when the file
    is missing, and then the response is the 404 it raises. *)
Theorem index_route_only_fails (p : process) (g : gateway) (o : proxy_options)
    (w : world) (req : request) :
  In (g, o) (scripts p) →
  Str.starts_with "/" (path req) = true →
  answering_layer g w req = Some index_layer →
  fs w !! path_join (__dirname p) "index.html" = None
  ∧ status (handle g w req) = 404.
Proof.
  intros Hg Hslash Hans. unfold answering_layer in Hans.
  rewrite (scripts_layers p g o Hg) in Hans.
  assert (Hm : req_method req ≠ OPTIONS).
  { intros E. rewrite answering_layer_table, E in Hans. discriminate. }
  rewrite answering_layer_past_cors in Hans by exact Hm.
  destruct (static_answers (__dirname p) w req) eqn:Hs; [discriminate|].
  destruct (match_mount "/api" (path req)) eqn:Hmount; [discriminate|].
  destruct (is_get (req_method req)) eqn:Hget; [|discriminate]. cbn [andb] in Hans.
  destruct (match_route "/" (path req)) eqn:Hroute;
    [|destruct (match_route "/health" (path req)); discriminate].
  pose proof (match_route_root _ Hslash Hroute) as Hp.
  destruct (fs w !! path_join (__dirname p) "index.html") as [[c|]|] eqn:Hfs.
  - exfalso. exact (static_passes_root _ w req c Hget Hp Hs Hfs).
  - destruct (match_route "/health" (path req)); discriminate.
  - split; [reflexivity|]. unfold handle, dispatch.
    rewrite (scripts_layers p g o Hg), route_past_static by assumption.
    rewrite !route_cons, !layer_matches_get. cbn [layer_matches layer_handle].
    rewrite Hmount, Hget, Hroute. cbn [andb]. unfold index_route, res_sendFile.
    rewrite Hfs. reflexivity.
Qed.

Lemma index_route_only_fails_witness :
  fs Scenarios.without_index !! path_join (__dirname Examples.container) "index.html" = None
  ∧ status (handle (Part001.startup Examples.container) Scenarios.without_index
              (plain GET "/")) = 404.
Proof.
  exact (index_route_only_fails Examples.container _ _ Scenarios.without_index
           (plain GET "/") (or_intror (or_introl eq_refl)) eq_refl eq_refl).
Defined.

(* ===================================================================== *)
(** * What a response depends on                                          *)
(* ===================================================================== *)

(** Two environments give the same response when every layer that
    matches the request does the same in both. *)
Lemma route_ext (stack : list layer) (w w' : world) (req : request) :
  Forall (fun l => layer_matches l req = true →
                   ∀ hs, layer_handle l w req hs = layer_handle l w' req hs) stack →
  ∀ hs i, route stack w req hs i = route stack w' req hs i.
Proof.
  induction 1 as [|l stack Hl _ IH]; intros hs i; [reflexivity|].
  rewrite !route_cons. destruct (layer_matches l req) eqn:Hmatch; [|apply IH].
  rewrite (Hl eq_refl hs).
  destruct (layer_handle l w' req hs); [apply IH | reflexivity | reflexivity].
Qed.

Lemma express_static_fs (root : string) (w w' : world) (req : request) (hs : headers) :
  fs w = fs w' → express_static root w req hs = express_static root w' req hs.
Proof. intros H. unfold express_static. rewrite H. reflexivity. Qed.

Lemma index_route_fs (root : string) (w w' : world) (req : request) (hs : headers) :
  fs w = fs w' → index_route root w req hs = index_route root w' req hs.
Proof. intros H. unfold index_route, res_sendFile. rewrite H. reflexivity. Qed.

Lemma health_route_now (w w' : world) (req : request) (hs : headers) :
  now w = now w' → health_route w req hs = health_route w' req hs.
Proof. intros H. unfold health_route. rewrite H. reflexivity. Qed.

(** X5.  A request whose path is not under [/api] is answered without
    the upstream: with the same files and the same clock, the response is
    the same whatever the upstream does (down, slow to fail, or answering
    anything).  So the probe, the index document and the static files do
    not depend on the backend. *)
Theorem outside_api_ignores_upstream (p : process) (g : gateway) (o : proxy_options)
    (w w' : world) (req : request) :
  In (g, o) (scripts p) →
  match_mount "/api" (path req) = false →
  fs w = fs w' → now w = now w' →
  handle g w req = handle g w' req.
Proof.
  intros Hg Hmount Hfs Hnow. unfold handle, dispatch. f_equal.
  rewrite (scripts_layers p g o Hg). apply route_ext.
  unfold script_layers.
  repeat apply List.Forall_cons; [.. | apply List.Forall_nil];
    cbn [layer_matches layer_handle]; intros Hmatch hs.
  - reflexivity.
  - apply express_static_fs, Hfs.
  - congruence.
  - apply index_route_fs, Hfs.
  - apply health_route_now, Hnow.
Qed.

Lemma outside_api_ignores_upstream_witness :
  handle (Part001.startup Examples.container) Examples.deployed (plain GET "/health")
  = handle (Part001.startup Examples.container) Scenarios.same_behind_echo
      (plain GET "/health").
Proof.
  exact (outside_api_ignores_upstream Examples.container _ _ Examples.deployed
           Scenarios.same_behind_echo (plain GET "/health")
           (or_intror (or_introl eq_refl)) eq_refl eq_refl eq_refl).
Defined.

(* ===================================================================== *)
(** * Static files stay below the asset root                              *)
(* ===================================================================== *)

Lemma split_pieces_no_sep (c : ascii) (s : string) :
  Forall (fun piece => has_char c piece = false) (Str.split c s).
Proof.
  induction s as [|a s IH]; [repeat constructor|].
  cbn [Str.split]. destruct (Ascii.eqb a c) eqn:Ha.
  - constructor; [reflexivity | exact IH].
  - destruct (Str.split c s) as [|piece pieces].
    + repeat constructor. cbn [has_char]. rewrite Ha. reflexivity.
    + inversion IH as [|? ? Hpiece Hpieces]; subst.
      constructor; [|exact Hpieces]. cbn [has_char]. rewrite Ha, Hpiece. reflexivity.
Qed.

Lemma normalize_go_entry_names (segs acc parts : list string) :
  Forall (fun seg => has_char "/" seg = false) segs →
  Forall entry_name acc →
  normalize_go segs acc = Some parts →
  Forall entry_name parts.
Proof.
  revert acc. induction segs as [|seg segs IH]; intros acc Hsegs Hacc Hn.
  - cbn [normalize_go] in Hn. injection Hn as <-.
    apply List.Forall_rev, Hacc.
  - inversion Hsegs as [|? ? Hseg Hrest]; subst. cbn [normalize_go] in Hn.
    destruct (String.eqb_spec seg ""); [exact (IH acc Hrest Hacc Hn)|].
    destruct (String.eqb_spec seg "."); [exact (IH acc Hrest Hacc Hn)|].
    cbn [orb] in Hn.
    destruct (String.eqb_spec seg "..").
    + destruct acc as [|a acc]; [discriminate|].
      inversion Hacc; subst. exact (IH acc Hrest ltac:(assumption) Hn).
    + apply (IH (seg :: acc) Hrest); [|exact Hn].
      constructor; [|exact Hacc]. repeat split; assumption.
Qed.

Lemma normalize_entry_names (pth : string) (parts : list string) :
  normalize pth = Some parts → Forall entry_name parts.
Proof.
  unfold normalize. apply normalize_go_entry_names; [apply split_pieces_no_sep|constructor].
Qed.

Lemma route_static_response (root : string) (o : proxy_options) (w : world)
    (req : request) (r : response) :
  req_method req ≠ OPTIONS →
  express_static root w req cors_headers = End r →
  route (script_layers root o) w req ∅ 0 = (Some static_layer, r).
Proof.
  intros Hm Hr. unfold script_layers.
  rewrite route_cons. cbn [layer_matches layer_handle].
  change (match_mount "/" (path req)) with true. cbv iota.
  rewrite cors_passes by exact Hm.
  rewrite route_cons. cbn [layer_matches layer_handle].
  change (match_mount "/" (path req)) with true. cbv iota.
  unfold cors_headers in Hr. rewrite Hr. reflexivity.
Qed.

(** What the static middleware sends with status 200 is a file found
    under the root by entry names alone. *)
Lemma express_static_file (root : string) (w : world) (req : request) (hs : headers)
    (r : response) :
  express_static root w req hs = End r → status r = 200 →
  ∃ parts content,
    Forall entry_name parts
    ∧ fs w !! resolve root parts = Some (File content)
    ∧ body r = payload req content.
Proof.
  assert (Hsent : ∀ c, status (send_file req hs c) = 200 →
                       body (send_file req hs c) = payload req c).
  { intros c. unfold send_file. destruct (matches_any (req_headers req));
      [discriminate | reflexivity]. }
  unfold express_static.
  destruct (req_method req) eqn:Hm; try discriminate;
    (destruct (contains_nul (path req)); [discriminate|];
     destruct (normalize (path req)) as [parts|] eqn:Hn; [|discriminate];
     apply normalize_entry_names in Hn;
     destruct (Str.ends_with_slash (path req));
     [destruct (fs w !! resolve root (parts ++ ["index.html"])) as [[c|]|] eqn:Hfs;
      try discriminate;
      intros [= <-] Hok; exists (parts ++ ["index.html"]), c;
      split; [apply Forall_app; split;
              [exact Hn | repeat constructor; discriminate] |];
      split; [exact Hfs | exact (Hsent c Hok)]
     |destruct (dotfile parts); [discriminate|];
      destruct (fs w !! resolve root parts) as [[c|]|] eqn:Hfs; try discriminate;
      [intros [= <-] Hok; exists parts, c;
       split; [exact Hn|]; split; [exact Hfs | exact (Hsent c Hok)]
      |intros [= <-]; cbn [status]; discriminate]]).
Qed.

(** X9.  The static middleware never leaves the script's directory:
    whenever it answers a request with a file (status 200), the file is
    one found from [__dirname] by descending through directory entries,
    none of them [..], whatever dots and slashes the request path
    contains.  A path that climbs above the root is passed on instead. *)
Theorem static_stays_below_root (p : process) (g : gateway) (o : proxy_options)
    (w : world) (req : request) :
  In (g, o) (scripts p) →
  answering_layer g w req = Some static_layer →
  status (handle g w req) = 200 →
  ∃ parts content,
    Forall entry_name parts
    ∧ fs w !! resolve (__dirname p) parts = Some (File content)
    ∧ body (handle g w req) = payload req content.
Proof.
  intros Hg Hans. unfold answering_layer in Hans. unfold handle, dispatch.
  rewrite (scripts_layers p g o Hg) in *.
  assert (Hm : req_method req ≠ OPTIONS).
  { intros E. rewrite answering_layer_table, E in Hans. discriminate. }
  rewrite answering_layer_past_cors in Hans by exact Hm.
  destruct (express_static_cases (__dirname p) w req cors_headers)
    as [[Hs _] | [_ [r Hr]]].
  - rewrite Hs in Hans.
    destruct (match_mount "/api" (path req)); [discriminate|].
    destruct (is_get (req_method req) && match_route "/" (path req));
      [destruct (fs w !! path_join (__dirname p) "index.html") as [[c|]|];
       try discriminate|];
      destruct (is_get (req_method req) && match_route "/health" (path req));
      discriminate.
  - rewrite (route_static_response _ o w req r Hm Hr). cbn [snd].
    apply (express_static_file _ w req cors_headers r Hr).
Qed.

Lemma static_stays_below_root_witness :
  ∃ parts content,
    Forall entry_name parts
    ∧ fs Scenarios.with_outside_file !! resolve (__dirname Examples.container) parts
      = Some (File content)
    ∧ body (handle (Part001.startup Examples.container) Scenarios.with_outside_file
              (plain GET "/x/../server.js"))
      = payload (plain GET "/x/../server.js") content.
Proof.
  exact (static_stays_below_root Examples.container _ _ Scenarios.with_outside_file
           (plain GET "/x/../server.js") (or_intror (or_introl eq_refl))
           eq_refl eq_refl).
Defined.

(* ===================================================================== *)
(** * startup.sh: the wait for the database file                          *)
(* ===================================================================== *)

Module StartupShFacts.
Import StartupSh.

Lemma wait_loop_exit (fuel : nat) (present : nat → bool) (counter : nat)
    (out : list string) :
  negb (present counter) && (counter <? timeout)%nat = false →
  wait_loop fuel present counter out = (counter, out).
Proof. intros H. destruct fuel; [reflexivity|]. cbn [wait_loop]. rewrite H. reflexivity. Qed.

(** From round [counter] on, with the file absent up to second [k]. *)
Lemma wait_loop_rounds (present : nat → bool) (k : nat) :
  (k <= timeout)%nat →
  (∀ j, (j < k)%nat → present j = false) →
  (present k = true ∨ k = timeout) →
  ∀ (n fuel counter : nat) (out : list string),
    (counter + n = k)%nat → (n <= fuel)%nat →
    wait_loop fuel present counter out
    = (k, out ++ map waiting_line (seq counter n)).
Proof.
  intros Hk Habsent Hstop. induction n as [|n IH]; intros fuel counter out Hc Hfuel.
  - rewrite Nat.add_0_r in Hc. subst counter. cbn [seq map]. rewrite app_nil_r.
    apply wait_loop_exit.
    destruct Hstop as [-> | ->]; [reflexivity|].
    rewrite Nat.ltb_irrefl. apply andb_false_r.
  - destruct fuel as [|fuel]; [lia|]. cbn [wait_loop].
    rewrite (Habsent counter) by lia. cbn [negb andb].
    rewrite (proj2 (Nat.ltb_lt _ _)) by lia.
    rewrite (IH fuel (S counter)) by lia.
    cbn [seq map]. rewrite <- app_assoc. reflexivity.
Qed.

Lemma first_present (present : nat → bool) (bound : nat) :
  ∃ k, (k <= bound)%nat ∧ (∀ j, (j < k)%nat → present j = false)
       ∧ (present k = true ∨ k = bound).
Proof.
  induction bound as [|bound (k & Hk & Habsent & Hstop)].
  - exists 0%nat. split; [lia|]. split; [intros j Hj; lia | right; reflexivity].
  - destruct Hstop as [Hp | ->].
    + exists k. split; [lia|]. split; [exact Habsent | left; exact Hp].
    + destruct (present bound) eqn:Hb.
      * exists bound. split; [lia|]. split; [exact Habsent | left; exact Hb].
      * exists (S bound). split; [lia|]. split; [|right; reflexivity].
        intros j Hj. destruct (Nat.eq_dec j bound) as [->|]; [exact Hb|].
        apply Habsent. lia.
Qed.

Lemma prepare_database_rounds (present : nat → bool) (k : nat) :
  (k <= timeout)%nat →
  (∀ j, (j < k)%nat → present j = false) →
  (present k = true ∨ k = timeout) →
  waited (prepare_database present) = k
  ∧ init_db (prepare_database present) = negb (present k)
  ∧ output (prepare_database present)
    = map waiting_line (seq 0 k)
      ++ [if present k then "数据库已存在，跳过初始化" else "初始化数据库..."].
Proof.
  intros Hk Habsent Hstop. unfold prepare_database.
  rewrite (wait_loop_rounds present k Hk Habsent Hstop k timeout 0 []) by lia.
  cbn [app]. destruct (present k); cbn [negb waited init_db output]; repeat split.
Qed.

End StartupShFacts.




(** X12.  The path the script waits on is the path its database check
    opens afterwards: the script exports the variable with the default
    filled in, so the check, whose own default replaces an unset variable
    only, reads the same non-empty path even when the variable was set but
    empty. *)
Theorem startup_database_path_agrees (e : gmap string string) :
  StartupSh.checked_path (StartupSh.export_database_path e) = StartupSh.database_path e
  ∧ StartupSh.database_path e ≠ ""
  ∧ (e !! "DATABASE_PATH" = Some "" →
     StartupSh.checked_path e = "" ∧ StartupSh.database_path e = "/app/data/monitor.db").
Proof.
  unfold StartupSh.checked_path, StartupSh.export_database_path, StartupSh.database_path,
    env_or.
  split; [|split].
  - rewrite lookup_insert_eq. reflexivity.
  - destruct (e !! "DATABASE_PATH") as [v|]; [|discriminate].
    destruct (String.eqb_spec v ""); [discriminate | assumption].
  - intros ->. split; reflexivity.
Qed.

(* ===================================================================== *)
(** * The image built from the Dockerfile                                 *)
(* ===================================================================== *)

Module DockerfileFacts.
Import Dockerfile.

(** The build of the frontend image, step by step. *)
Lemma build_frontend (run : string → gmap string node → option (gmap string node))
    (context : gmap string string) (base : gmap string node) :
  build run context (from_base base) frontend =
  pkg ← context !! "package.json";
  srv ← context !! "server.js";
  idx ← context !! "index.html";
  fs ← run "npm install --production"
         (<["/app/index.html" := File idx]>
            (<["/app/server.js" := File srv]>
               (<["/app/package.json" := File pkg]>
                  (<["/app" := Directory]> base))));
  Some {| workdir := "/app"; files := fs; exposed := [3000]; cmd := ["npm"; "start"] |}.
Proof.
  unfold frontend, from_base.
  cbn [build step mbind option_bind workdir files exposed cmd].
  change (dest_dir "/app" "./") with "/app".
  cbn [copy].
  destruct (context !! "package.json") as [pkg|]; [|reflexivity].
  destruct (context !! "server.js") as [srv|]; [|reflexivity].
  cbn [mbind option_bind build step workdir files exposed cmd copy].
  destruct (context !! "index.html") as [idx|]; [|reflexivity].
  cbn [mbind option_bind build step workdir files exposed cmd].
  change (path_join "/app" (basename "package.json")) with "/app/package.json".
  change (path_join "/app" (basename "server.js")) with "/app/server.js".
  change (path_join "/app" (basename "index.html")) with "/app/index.html".
  destruct (run _ _) as [fs|]; reflexivity.
Qed.

End DockerfileFacts.

(** A file that the static middleware finds is the response. *)
Lemma handle_static_file (p : process) (g : gateway) (o : proxy_options)
    (w : world) (req : request) (r : response) :
  In (g, o) (scripts p) →
  req_method req ≠ OPTIONS →
  express_static (__dirname p) w req cors_headers = End r →
  handle g w req = r.
Proof.
  intros Hg Hm Hr. unfold handle, dispatch.
  rewrite (scripts_layers p g o Hg), (route_static_response _ o w req r Hm Hr).
  reflexivity.
Qed.

(** X13.  When the image of the Dockerfile builds, the build context
    held [package.json], [server.js] and [index.html] (a missing one fails
    its [COPY]), and, [npm install] only adding files, the gateway started
    in the image's working directory finds them next to itself: GET [/]
    returns the context's [index.html], GET [/server.js] the script's own
    source, and without a [PORT] variable it listens on 3000, the port the
    image exposes. *)
Theorem image_serves_its_context
    (run : string → gmap string node → option (gmap string node))
    (context : gmap string string) (base : gmap string node)
    (img : Dockerfile.image) :
  Dockerfile.build run context (Dockerfile.from_base base) Dockerfile.frontend = Some img →
  Dockerfile.only_adds run →
  ∃ pkg srv idx,
    context !! "package.json" = Some pkg
    ∧ context !! "server.js" = Some srv
    ∧ context !! "index.html" = Some idx
    ∧ Dockerfile.exposed img = [3000]
    ∧ ∀ p g o w,
        In (g, o) (scripts p) →
        __dirname p = Dockerfile.workdir img → fs w = Dockerfile.files img →
        (status (handle g w (plain GET "/")) = 200
         ∧ body (handle g w (plain GET "/")) = idx)
        ∧ (status (handle g w (plain GET "/server.js")) = 200
           ∧ body (handle g w (plain GET "/server.js")) = srv)
        ∧ (env p !! "PORT" = None → PORT g = PortNumber 3000).
Proof.
  intros Hbuild Hrun. rewrite DockerfileFacts.build_frontend in Hbuild.
  destruct (context !! "package.json") as [pkg|]; [|discriminate].
  destruct (context !! "server.js") as [srv|]; [|discriminate].
  destruct (context !! "index.html") as [idx|]; [|discriminate].
  cbn [mbind option_bind] in Hbuild.
  destruct (run _ _) as [fs1|] eqn:Hnpm; [|discriminate].
  cbn [mbind option_bind] in Hbuild. injection Hbuild as <-.
  exists pkg, srv, idx. cbn [Dockerfile.exposed Dockerfile.workdir Dockerfile.files].
  repeat (split; [reflexivity|]).
  intros p g o w Hg Hdir Hfs.
  assert (Hidx : fs w !! "/app/index.html" = Some (File idx)).
  { rewrite Hfs. apply (Hrun _ _ _ Hnpm). apply lookup_insert_eq. }
  assert (Hsrv : fs w !! "/app/server.js" = Some (File srv)).
  { rewrite Hfs. apply (Hrun _ _ _ Hnpm).
    rewrite lookup_insert_ne by discriminate. apply lookup_insert_eq. }
  split; [|split].
  - rewrite (handle_static_file p g o w (plain GET "/")
               {| status := 200; res_headers := cors_headers; body := idx |} Hg);
      [split; reflexivity | discriminate |].
    apply static_index; [reflexivity | reflexivity | reflexivity |].
    rewrite Hdir. exact Hidx.
  - rewrite (handle_static_file p g o w (plain GET "/server.js")
               {| status := 200; res_headers := cors_headers; body := srv |} Hg);
      [split; reflexivity | discriminate |].
    apply (static_serves _ w _ _ ["server.js"]); try reflexivity.
    rewrite Hdir. exact Hsrv.
  - intros Hport. unfold scripts in Hg. cbn [In] in Hg.
    destruct Hg as [[= <- <-] | [[= <- <-] | []]];
      cbn [PORT ServerJs.startup Part001.startup]; unfold port_or; rewrite Hport;
      reflexivity.
Qed.

Lemma image_serves_its_context_witness :
  ∃ pkg srv idx,
    Dockerfile.sources !! "package.json" = Some pkg
    ∧ Dockerfile.sources !! "server.js" = Some srv
    ∧ Dockerfile.sources !! "index.html" = Some idx
    ∧ Dockerfile.exposed Dockerfile.example = [3000]
    ∧ ∀ p g o w,
        In (g, o) (scripts p) →
        __dirname p = Dockerfile.workdir Dockerfile.example →
        fs w = Dockerfile.files Dockerfile.example →
        (status (handle g w (plain GET "/")) = 200
         ∧ body (handle g w (plain GET "/")) = idx)
        ∧ (status (handle g w (plain GET "/server.js")) = 200
           ∧ body (handle g w (plain GET "/server.js")) = srv)
        ∧ (env p !! "PORT" = None → PORT g = PortNumber 3000).
Proof.
  refine (image_serves_its_context Dockerfile.npm_install Dockerfile.sources ∅
            Dockerfile.example _ _).
  - vm_compute. reflexivity.
  - intros command fs fs' [= <-] k n Hk. apply lookup_union_Some_l. exact Hk.
Defined.
